(** * OpenLCA Sankey plugin backend (src/backend/main.py)

    A shallow embedding of the FastAPI backend that sits in front of the
    openLCA IPC server, and the properties of its request handling:
    connection management, result polling, impact category resolution and
    the reshaping of the engine's Sankey graph into the frontend format.

    Python floats are IEEE-754 doubles and are modelled by Rocq's primitive
    floats.  Python dicts built by literals are association lists in
    insertion order; dicts used as lookup tables are [gmap]s.  The openLCA
    engine (packages [olca_ipc] and [olca_schema]) is not part of the
    repository: its answers are the fields of the records [Engine] and
    [Result], each of which may raise.  Logging is not modelled. *)

From Stdlib Require Import ZArith List String Floats Bool Lia.
From stdpp Require Import base option list gmap strings.
Import ListNotations.

Local Open Scope string_scope.
Local Open Scope list_scope.
Set Warnings "-register-all,-inexact-float".

(** ** Python values and primitives *)

(** The JSON-like values the endpoints return. *)
Inductive pyval : Type :=
| VNone
| VBool (b : bool)
| VInt (n : Z)
| VFloat (x : float)
| VStr (s : string)
| VList (l : list pyval)
| VDict (d : list (string * pyval)).

(** [d[key]] on a dict literal; [None] for a missing key or a non-dict. *)
Fixpoint assoc_get (key : string) (d : list (string * pyval)) : option pyval :=
  match d with
  | [] => None
  | (k, v) :: d' => if String.eqb k key then Some v else assoc_get key d'
  end.

Definition dict_get (key : string) (v : pyval) : option pyval :=
  match v with
  | VDict d => assoc_get key d
  | _ => None
  end.

Definition dict_keys (v : pyval) : list string :=
  match v with
  | VDict d => map fst d
  | _ => []
  end.

(** The float an optional value holds, 0.0 standing for anything else. *)
Definition float_of (v : option pyval) : float :=
  match v with
  | Some (VFloat x) => x
  | _ => 0%float
  end.

Definition list_items (v : option pyval) : list pyval :=
  match v with
  | Some (VList l) => l
  | _ => []
  end.

(** A call into the engine either raises [Exception(msg)] ([inl msg]) or
    returns a value. *)
Definition Raises (A : Type) : Type := (string + A)%type.

Module Py.

(** Truth value of an [Optional[str]]: [None] and [""] are falsy. *)
Definition truthy_str (s : option string) : bool :=
  match s with
  | Some (String _ _) => true
  | _ => false
  end.

(** Truth value of an [Optional[float]]: [None], [0.0] and [-0.0] are falsy;
    NaN is truthy. *)
Definition truthy_float (x : option float) : bool :=
  match x with
  | Some f => negb (PrimFloat.eqb f 0)
  | None => false
  end.

(** Truth value of an [Optional[bool]]. *)
Definition truthy_bool (b : option bool) : bool :=
  match b with
  | Some true => true
  | _ => false
  end.

(** [x or d] for an [Optional[float]] [x]. *)
Definition float_or (x : option float) (d : float) : float :=
  match x with
  | Some f => if truthy_float x then f else d
  | None => d
  end.

(** [x != y] and [x > y] on floats. *)
Definition float_ne (x y : float) : bool := negb (PrimFloat.eqb x y).
Definition float_gt (x y : float) : bool := PrimFloat.ltb y x.

(** [x / y] on floats: Python raises ZeroDivisionError on a zero divisor. *)
Definition truediv (x y : float) : Raises float :=
  if PrimFloat.eqb y 0 then inl "float division by zero"
  else inr (PrimFloat.div x y).

(** [s] for an [Optional[str]] placed in a response. *)
Definition of_opt_str (s : option string) : pyval :=
  match s with
  | Some s => VStr s
  | None => VNone
  end.

End Py.

(** ** The entities of [olca_schema] the backend reads

    Every field of an [olca_schema] dataclass is optional. *)

Record Ref : Type := mkRef {
  ref_id : option string;
  ref_name : option string;
  ref_category : option string
}.

Record ProductSystem : Type := {
  ps_id : option string;
  ps_name : option string;
  target_amount : option float
}.

Record ImpactMethod : Type := {
  impact_categories : option (list Ref)
}.

Record ImpactCategory : Type := {
  ref_unit : option string
}.

Record ImpactValue : Type := {
  impact_category : option Ref;
  amount : option float
}.

Record ResultState : Type := {
  is_ready : option bool;
  error : option string
}.

Record TechFlow : Type := {
  provider : option Ref;
  flow : option Ref
}.

Record SankeyNode : Type := {
  index : option Z;
  tech_flow : option TechFlow;
  direct_result : option float;
  total_result : option float
}.

Record SankeyEdge : Type := {
  node_index : option Z;
  provider_index : option Z;
  upstream_share : option float
}.

Record SankeyGraph : Type := {
  nodes : option (list SankeyNode);
  edges : option (list SankeyEdge);
  root_index : option Z
}.

Record SankeyRequest : Type := {
  req_impact_category : Ref;
  req_max_nodes : Z;
  req_min_share : float
}.

Record CalculationSetup : Type := {
  setup_target : Ref;
  setup_impact_method : Ref;
  setup_amount : float
}.

Inductive ModelType : Type :=
| TProductSystem | TImpactCategory | TImpactMethod | TProcess | TFlow.

(** [schema.Ref(id=..., name=...)]: the other fields keep their default. *)
Definition Ref_of (i n : option string) : Ref :=
  {| ref_id := i; ref_name := n; ref_category := None |}.

(** [system.to_ref()]. *)
Definition to_ref (system : ProductSystem) : Ref :=
  Ref_of (ps_id system) (ps_name system).

(** ** The engine behind the IPC client *)

(** The handle [cl.calculate] returns.  [get_state k] is the answer to the
    poll number [k] (counted from 0) on this handle. *)
Record Result : Type := {
  result_error : option string;
  get_state : nat -> Raises ResultState;
  get_impact_categories : Raises (list Ref);
  get_total_impacts : Raises (list ImpactValue);
  get_total_impact_value_of : Ref -> Raises (option ImpactValue);
  get_sankey_graph : SankeyRequest -> Raises (option SankeyGraph);
  dispose : Raises unit
}.

Record Engine : Type := {
  (** [olca.Client(8080)] *)
  connect : Raises unit;
  (** [cl.get(schema.ProductSystem, id)] and its siblings *)
  get_product_system : string -> Raises (option ProductSystem);
  get_impact_method : string -> Raises (option ImpactMethod);
  get_impact_category : option string -> Raises (option ImpactCategory);
  (** [cl.get_descriptors(type)] *)
  get_descriptors_of : ModelType -> Raises (list Ref);
  (** [cl.calculate(setup)] *)
  calculate : CalculationSetup -> Raises Result;
  (** [d.to_dict()] on a descriptor *)
  to_dict : Ref -> pyval
}.

(** ** Category resolution: the pure part of [_resolve_impact_category] *)

(** The first loop: the category with the requested id. *)
Definition find_by_id (impact_cats : list Ref) (impact_category_id : string)
  : option Ref :=
  List.find (fun cat => bool_decide (ref_id cat = Some impact_category_id))
            impact_cats.

(** [impacts_by_id], filled from the result's total impacts; a later entry
    for the same id overwrites an earlier one. *)
Definition impacts_by_id_of (total_impacts_list : list ImpactValue)
  : gmap (option string) float :=
  fold_left
    (fun (m : gmap (option string) float) ti =>
       match impact_category ti with
       | Some c => <[ref_id c := Py.float_or (amount ti) 0]> m
       | None => m
       end)
    total_impacts_list ∅.

(** [abs(impacts_by_id.get(cat.id, 0.0))]. *)
Definition abs_amount (impacts_by_id : gmap (option string) float) (cat : Ref)
  : float :=
  PrimFloat.abs (default 0%float (impacts_by_id !! ref_id cat)).

(** One round of the selection loop on [(best_cat, best_amount)]. *)
Definition best_step (impacts_by_id : gmap (option string) float)
    (st : option Ref * float) (cat : Ref) : option Ref * float :=
  let amount := abs_amount impacts_by_id cat in
  if Py.float_gt amount (snd st) then (Some cat, amount) else st.

Definition auto_select (total_impacts_list : list ImpactValue)
    (impact_cats : list Ref) : option Ref :=
  let impacts_by_id := impacts_by_id_of total_impacts_list in
  match fst (fold_left (best_step impacts_by_id) impact_cats (None, 0%float)) with
  | Some best_cat => Some best_cat
  | None => head impact_cats
  end.

(** ** The request-handling monad

    A handler runs against the process state: the module-level [client]
    variable and the sequence of calls made to the engine so far (with the
    sleeps between them).  It returns, raises, or, for the polling loop of
    the model, runs out of fuel. *)

Inductive Client : Type :=
| ClientOn (port : Z).

Inductive IpcCall : Type :=
| Connect (port : Z)
| GetEntity (t : ModelType) (uid : option string)
| GetDescriptors (t : ModelType)
| Calculate (setup : CalculationSetup)
| GetState
| GetImpactCategories
| GetTotalImpacts
| GetTotalImpactValueOf (cat : Ref)
| GetSankeyGraph (config : SankeyRequest)
| Dispose
| Sleep (seconds : float).

Record World : Type := {
  client : option Client;
  trace : list IpcCall
}.

Inductive exn : Type :=
| HTTPException (status_code : Z) (detail : string)
| Exception (msg : string).

Inductive outcome (A : Type) : Type :=
| Return (a : A)
| Raise (e : exn)
| OutOfFuel.

Arguments Return {A} a.
Arguments Raise {A} e.
Arguments OutOfFuel {A}.

Definition M (A : Type) : Type := World -> outcome A * World.

Definition ret {A} (a : A) : M A := fun w => (Return a, w).

Definition raise {A} (e : exn) : M A := fun w => (Raise e, w).

Definition out_of_fuel {A} : M A := fun w => (OutOfFuel, w).

Definition bind {A B} (c : M A) (k : A -> M B) : M B :=
  fun w =>
    match c w with
    | (Return a, w') => k a w'
    | (Raise e, w') => (Raise e, w')
    | (OutOfFuel, w') => (OutOfFuel, w')
    end.

Notation "x <- c ;; k" := (bind c (fun x => k))
  (at level 100, c at next level, right associativity).

Definition rbind {A B} (c : Raises A) (k : A -> Raises B) : Raises B :=
  match c with
  | inl msg => inl msg
  | inr a => k a
  end.

Notation "x <~ c ;; k" := (rbind c (fun x => k))
  (at level 100, c at next level, right associativity).

Definition log_call (c : IpcCall) (w : World) : World :=
  {| client := client w; trace := trace w ++ [c] |}.

(** A call into the engine: it is recorded, and its answer or exception is
    passed on. *)
Definition ipc {A} (c : IpcCall) (answer : Raises A) : M A :=
  fun w =>
    (match answer with
     | inl msg => Raise (Exception msg)
     | inr a => Return a
     end, log_call c w).

(** [time.sleep(seconds)]. *)
Definition sleep (seconds : float) : M unit :=
  fun w => (Return tt, log_call (Sleep seconds) w).

(** A pure computation that may raise, run inside a handler. *)
Definition lift {A} (r : Raises A) : M A :=
  fun w =>
    (match r with
     | inl msg => Raise (Exception msg)
     | inr a => Return a
     end, w).

(** [except HTTPException: raise / except Exception as e: raise
    HTTPException(500, str(e))]. *)
Definition to_http_500 (e : exn) : exn :=
  match e with
  | HTTPException _ _ => e
  | Exception msg => HTTPException 500 msg
  end.

Definition try_500 {A} (c : M A) : M A :=
  fun w =>
    match c w with
    | (Raise e, w') => (Raise (to_http_500 e), w')
    | r => r
    end.

(** [try: ... except Exception: pass], continuing with [d]. *)
Definition try_pass {A} (c : M A) (d : A) : M A :=
  fun w =>
    match c w with
    | (Raise _, w') => (Return d, w')
    | r => r
    end.

(** [for x in l: body], threading the loop's variables [acc]. *)
Fixpoint for_each {A B} (l : list A) (acc : B) (body : B -> A -> M B) : M B :=
  match l with
  | [] => ret acc
  | x :: l' => acc' <- body acc x ;; for_each l' acc' body
  end.

(** ** Response shaping: the tail of [get_sankey] *)

Definition str_or (s : option string) (d : string) : string :=
  if Py.truthy_str s then default d s else d.

(** [abs(x / abs_total) * 100 if abs_total != 0 else 0]. *)
Definition pct (x abs_total : float) : Raises pyval :=
  if Py.float_ne abs_total 0 then
    q <~ Py.truediv x abs_total ;;
    inr (VFloat (PrimFloat.mul (PrimFloat.abs q) 100))
  else inr (VInt 0).

Definition opt_Z_eqb (a b : option Z) : bool := bool_decide (a = b).

(** The dict appended to [nodes_data] for one node. *)
Definition node_entry (sankey_graph : SankeyGraph) (abs_total : float)
    (node : SankeyNode) : Raises pyval :=
  let provider_name :=
    match tech_flow node with
    | Some tf => match provider tf with
                 | Some p => str_or (ref_name p) "Unknown"
                 | None => "Unknown"
                 end
    | None => "Unknown"
    end in
  let process_id :=
    match tech_flow node with
    | Some tf => match provider tf with
                 | Some p => str_or (ref_id p) ""
                 | None => ""
                 end
    | None => ""
    end in
  let flow_name :=
    match tech_flow node with
    | Some tf => match flow tf with
                 | Some f => str_or (ref_name f) ""
                 | None => ""
                 end
    | None => ""
    end in
  let direct := Py.float_or (direct_result node) 0 in
  let upstream := Py.float_or (total_result node) 0 in
  directPct <~ pct direct abs_total ;;
  upstreamPct <~ pct upstream abs_total ;;
  inr (VDict [("name", VStr provider_name);
              ("flowName", VStr flow_name);
              ("direct", VFloat direct);
              ("upstream", VFloat upstream);
              ("directPct", directPct);
              ("upstreamPct", upstreamPct);
              ("processId", VStr process_id);
              ("isRoot", VBool (opt_Z_eqb (index node) (root_index sankey_graph)))]).

(** [for i, node in enumerate(sankey_graph.nodes)], on the loop variables
    [nodes_data] and [index_to_pos]; [i] is the position of the next node. *)
Fixpoint nodes_loop (sankey_graph : SankeyGraph) (abs_total : float)
    (ns : list SankeyNode) (i : nat) (nodes_data : list pyval)
    (index_to_pos : gmap (option Z) nat)
  : Raises (list pyval * gmap (option Z) nat) :=
  match ns with
  | [] => inr (nodes_data, index_to_pos)
  | node :: ns' =>
      let index_to_pos' := <[index node := i]> index_to_pos in
      entry <~ node_entry sankey_graph abs_total node ;;
      nodes_loop sankey_graph abs_total ns' (S i) (nodes_data ++ [entry])
                 index_to_pos'
  end.

(** The dict appended to [links_data] for one edge, if any. *)
Definition link_entry (index_to_pos : gmap (option Z) nat) (abs_total : float)
    (edge : SankeyEdge) : option pyval :=
  let source_pos := index_to_pos !! provider_index edge in
  let target_pos := index_to_pos !! node_index edge in
  match source_pos, target_pos with
  | Some s, Some t =>
      if negb (Nat.eqb s t) then
        let share := Py.float_or (upstream_share edge) 0 in
        let value :=
          if Py.float_ne abs_total 0
          then PrimFloat.abs (PrimFloat.mul share abs_total)
          else 0.001%float in
        Some (VDict [("source", VInt (Z.of_nat s));
                     ("target", VInt (Z.of_nat t));
                     ("value", VFloat value);
                     ("share", VFloat share)])
      else None
  | _, _ => None
  end.

Definition links_loop (index_to_pos : gmap (option Z) nat) (abs_total : float)
    (es : list SankeyEdge) (links_data : list pyval) : list pyval :=
  fold_left
    (fun links_data edge =>
       match link_entry index_to_pos abs_total edge with
       | Some l => links_data ++ [l]
       | None => links_data
       end)
    es links_data.

(** [abs(total_impact) if total_impact != 0 else 1.0]. *)
Definition abs_total_of (total_impact : float) : float :=
  if Py.float_ne total_impact 0 then PrimFloat.abs total_impact else 1%float.

(** [ref_unit or target_impact.name or "impact"]. *)
Definition impact_unit_of (ref_unit : string) (target_impact : Ref) : string :=
  match ref_unit with
  | String _ _ => ref_unit
  | EmptyString => str_or (ref_name target_impact) "impact"
  end.

(** Lines 291-351: from the graph (whose node list is [ns]) to the response. *)
Definition shape_response (total_impact : float) (ref_unit : string)
    (target_impact : Ref) (sankey_graph : SankeyGraph) (ns : list SankeyNode)
  : Raises pyval :=
  let abs_total := abs_total_of total_impact in
  r <~ nodes_loop sankey_graph abs_total ns 0 [] ∅ ;;
  let nodes_data := fst r in
  let index_to_pos := snd r in
  let links_data :=
    match edges sankey_graph with
    | Some es => links_loop index_to_pos abs_total es []
    | None => []
    end in
  inr (VDict [("nodes", VList nodes_data);
              ("links", VList links_data);
              ("totalImpact", VFloat total_impact);
              ("impactUnit", VStr (impact_unit_of ref_unit target_impact));
              ("impactCategory", Py.of_opt_str (ref_name target_impact));
              ("rootIndex",
               VInt (Z.of_nat (default 0%nat
                                 (index_to_pos !! root_index sankey_graph))))]).

Definition _empty_result : pyval :=
  VDict [("nodes", VList []);
         ("links", VList []);
         ("totalImpact", VInt 0);
         ("impactUnit", VStr "");
         ("impactCategory", VStr "");
         ("rootIndex", VInt 0)].

(** ** The handlers *)

Section Handlers.

Variable eng : Engine.

Definition set_client (c : Client) (w : World) : World :=
  {| client := Some c; trace := trace w |}.

(** [get_client]: the handle is created on first use and kept. *)
Definition get_client : M (option Client) :=
  fun w =>
    match client w with
    | Some c => (Return (Some c), w)
    | None =>
        let w1 := log_call (Connect 8080) w in
        match connect eng with
        | inr _ => (Return (Some (ClientOn 8080)), set_client (ClientOn 8080) w1)
        | inl _ => (Return None, w1)
        end
    end.

Definition not_connected : exn :=
  HTTPException 503 "openLCA not connected".

(** [GET /api/status]. *)
Definition get_status : M pyval :=
  cl <- get_client ;;
  match cl with
  | Some _ => ret (VDict [("status", VStr "connected"); ("version", VStr "2.6.0")])
  | None => ret (VDict [("status", VStr "disconnected")])
  end.

Definition type_map (model_type : string) : option ModelType :=
  if String.eqb model_type "ProductSystem" then Some TProductSystem
  else if String.eqb model_type "ImpactCategory" then Some TImpactCategory
  else if String.eqb model_type "ImpactMethod" then Some TImpactMethod
  else if String.eqb model_type "Process" then Some TProcess
  else if String.eqb model_type "Flow" then Some TFlow
  else None.

(** [GET /api/descriptors/{model_type}]. *)
Definition get_descriptors (model_type : string) : M pyval :=
  cl <- get_client ;;
  match cl with
  | None => raise not_connected
  | Some _ =>
      match type_map model_type with
      | None => ret (VList [])
      | Some schema_type =>
          try_500
            (descriptors <- ipc (GetDescriptors schema_type)
                                (get_descriptors_of eng schema_type) ;;
             ret (VList (map (to_dict eng) descriptors)))
      end
  end.

(** The lookup of a category's reference unit that [get_method_categories]
    and [_get_ref_unit] both do inside [try: ... except Exception: pass],
    starting from [""]. *)
Definition fetch_ref_unit (uid : option string) : M string :=
  try_pass
    (full_cat <- ipc (GetEntity TImpactCategory uid)
                     (get_impact_category eng uid) ;;
     match full_cat with
     | Some c => ret (str_or (ref_unit c) "")
     | None => ret ""
     end)
    "".

(** [GET /api/method/{method_id}/categories]. *)
Definition get_method_categories (method_id : string) : M pyval :=
  cl <- get_client ;;
  match cl with
  | None => raise not_connected
  | Some _ =>
      try_500
        (method <- ipc (GetEntity TImpactMethod (Some method_id))
                       (get_impact_method eng method_id) ;;
         match method with
         | None => ret (VList [])
         | Some method =>
             categories <-
               for_each (default [] (impact_categories method)) []
                 (fun categories cat_ref =>
                    ref_unit <- fetch_ref_unit (ref_id cat_ref) ;;
                    ret (categories ++
                         [VDict [("@id", Py.of_opt_str (ref_id cat_ref));
                                 ("name", Py.of_opt_str (ref_name cat_ref));
                                 ("refUnit", VStr ref_unit)]])) ;;
             ret (VList categories)
         end)
  end.

(** The [while waited < max_wait] loop of [_wait_for_result]; [k] counts
    the polls made so far. *)
Fixpoint wait_loop (fuel : nat) (result : Result) (max_wait : float)
    (k : nat) (waited : float) : M unit :=
  match fuel with
  | O => out_of_fuel
  | S fuel' =>
      if PrimFloat.ltb waited max_wait then
        state <- ipc GetState (get_state result k) ;;
        if Py.truthy_bool (is_ready state) then ret tt
        else
          match error state with
          | Some ((String _ _) as e) =>
              raise (HTTPException 500 ("Calculation error: " ++ e))
          | _ =>
              _ <- sleep 0.5 ;;
              wait_loop fuel' result max_wait (S k) (PrimFloat.add waited 0.5)
          end
      else raise (HTTPException 504 "Calculation timed out")
  end.

(** [_wait_for_result(result, max_wait)]; the default [max_wait] is the
    integer 120, which a double represents exactly. *)
Definition _wait_for_result (fuel : nat) (result : Result) (max_wait : float)
  : M unit :=
  wait_loop fuel result max_wait 0 0.

(** [_resolve_impact_category(result, impact_cats, impact_category_id)]. *)
Definition _resolve_impact_category (result : Result) (impact_cats : list Ref)
    (impact_category_id : option string) : M (option Ref) :=
  let selected :=
    match impact_category_id with
    | Some ((String _ _) as wanted) => find_by_id impact_cats wanted
    | _ => None
    end in
  match selected with
  | Some cat => ret (Some cat)
  | None =>
      total_impacts_list <- ipc GetTotalImpacts (get_total_impacts result) ;;
      ret (auto_select total_impacts_list impact_cats)
  end.

(** [_get_ref_unit(cl, impact_ref)]. *)
Definition _get_ref_unit (impact_ref : Ref) : M string :=
  fetch_ref_unit (ref_id impact_ref).

(** The impact method of the calculation: the descriptor with the
    requested id, else the first one. *)
Definition resolve_method (impact_methods : list Ref) (first : Ref)
    (impact_method_id : option string) : Ref :=
  let method_ref :=
    match impact_method_id with
    | Some ((String _ _) as wanted) =>
        match List.find (fun m => bool_decide (ref_id m = Some wanted))
                        impact_methods with
        | Some m => Some (Ref_of (ref_id m) (ref_name m))
        | None => None
        end
    | _ => None
    end in
  match method_ref with
  | Some r => r
  | None => Ref_of (ref_id first) (ref_name first)
  end.

(** [total_impact_value.amount if total_impact_value and
    total_impact_value.amount else 0.0]. *)
Definition total_impact_of (total_impact_value : option ImpactValue) : float :=
  match total_impact_value with
  | Some v => Py.float_or (amount v) 0
  | None => 0
  end.

Definition dispose_result (result : Result) : M unit :=
  ipc Dispose (dispose result).

(** [get_sankey] from the point where the result is ready. *)
Definition sankey_of_result (result : Result)
    (impact_category_id : option string) (max_nodes : Z) (min_share : float)
  : M pyval :=
  impact_cats <- ipc GetImpactCategories (get_impact_categories result) ;;
  match impact_cats with
  | [] => _ <- dispose_result result ;; ret _empty_result
  | _ :: _ =>
      target_impact <-
        _resolve_impact_category result impact_cats impact_category_id ;;
      match target_impact with
      | None => _ <- dispose_result result ;; ret _empty_result
      | Some target_impact =>
          total_impact_value <-
            ipc (GetTotalImpactValueOf target_impact)
                (get_total_impact_value_of result target_impact) ;;
          let total_impact := total_impact_of total_impact_value in
          ref_unit <- _get_ref_unit target_impact ;;
          let sankey_config :=
            {| req_impact_category := target_impact;
               req_max_nodes := max_nodes;
               req_min_share := PrimFloat.div min_share 100 |} in
          sankey_graph <-
            ipc (GetSankeyGraph sankey_config)
                (get_sankey_graph result sankey_config) ;;
          _ <- dispose_result result ;;
          match sankey_graph with
          | None => ret _empty_result
          | Some g =>
              match nodes g with
              | None | Some [] => ret _empty_result
              | Some ((_ :: _) as ns) =>
                  lift (shape_response total_impact ref_unit target_impact g ns)
              end
          end
      end
  end.

(** [GET /api/sankey/{system_id}]. *)
Definition get_sankey (fuel : nat) (system_id : string)
    (impact_method_id impact_category_id : option string)
    (max_nodes : Z) (min_share : float) : M pyval :=
  cl <- get_client ;;
  match cl with
  | None => raise not_connected
  | Some _ =>
      try_500
        (system <- ipc (GetEntity TProductSystem (Some system_id))
                       (get_product_system eng system_id) ;;
         match system with
         | None => raise (HTTPException 404 "Product system not found")
         | Some system =>
             impact_methods <- ipc (GetDescriptors TImpactMethod)
                                   (get_descriptors_of eng TImpactMethod) ;;
             match impact_methods with
             | [] => ret _empty_result
             | first :: _ =>
                 let method_ref :=
                   resolve_method impact_methods first impact_method_id in
                 let setup :=
                   {| setup_target := to_ref system;
                      setup_impact_method := method_ref;
                      setup_amount := Py.float_or (target_amount system) 1 |} in
                 result <- ipc (Calculate setup) (calculate eng setup) ;;
                 if Py.truthy_str (result_error result) then ret _empty_result
                 else
                   _ <- _wait_for_result fuel result 120 ;;
                   sankey_of_result result impact_category_id max_nodes
                                    min_share
             end
         end)
  end.

End Handlers.

(** ** Reference formulations used by the statements *)

(** The total impact a result reports for a category: the amount of the
    last entry of the total impacts whose category has the same id, a
    missing entry or a missing amount counting as 0.0. *)
Definition total_amount_of (total_impacts_list : list ImpactValue) (cat : Ref)
  : float :=
  match List.find
          (fun ti => bool_decide (ref_id <$> impact_category ti = Some (ref_id cat)))
          (rev total_impacts_list) with
  | Some ti => default 0%float (amount ti)
  | None => 0%float
  end.

(** ** Sample data *)

Definition cat_climate : Ref :=
  {| ref_id := Some "c-1"; ref_name := Some "Climate change";
     ref_category := None |}.

Definition cat_water : Ref :=
  {| ref_id := Some "c-2"; ref_name := Some "Water use";
     ref_category := None |}.

Definition cat_land : Ref :=
  {| ref_id := Some "c-3"; ref_name := Some "Land use";
     ref_category := None |}.

(** A category whose id is the empty string. *)
Definition cat_blank : Ref :=
  {| ref_id := Some ""; ref_name := Some "Unnamed"; ref_category := None |}.

Definition sample_cats : list Ref := [cat_climate; cat_water; cat_land].

Definition sample_totals : list ImpactValue :=
  [ {| impact_category := Some cat_climate; amount := Some 1.5%float |};
    {| impact_category := Some cat_water; amount := Some (-3)%float |};
    {| impact_category := None; amount := Some 99%float |};
    {| impact_category := Some cat_land; amount := None |} ].

Definition world0 : World := {| client := None; trace := [] |}.

Definition system_demo : ProductSystem :=
  {| ps_id := Some "s-1"; ps_name := Some "Steel plant";
     target_amount := Some 2%float |}.

Definition method_traci : Ref :=
  {| ref_id := Some "m-1"; ref_name := Some "TRACI";
     ref_category := Some "methods" |}.

Definition method_recipe : Ref :=
  {| ref_id := Some "m-2"; ref_name := Some "ReCiPe";
     ref_category := Some "methods" |}.

Definition sample_methods : list Ref := [method_traci; method_recipe].

Definition pending : ResultState := {| is_ready := Some false; error := None |}.
Definition ready : ResultState := {| is_ready := Some true; error := None |}.
Definition failed (msg : string) : ResultState :=
  {| is_ready := Some false; error := Some msg |}.

(** Pending for [n] polls, then [last]. *)
Definition states_after (n : nat) (last : ResultState) (k : nat)
  : Raises ResultState :=
  inr (if Nat.ltb k n then pending else last).

Definition provider_ref (i n : string) : option TechFlow :=
  Some {| provider := Some (Ref_of (Some i) (Some n));
          flow := Some (Ref_of (Some "f-1") (Some "steel")) |}.

(** Three nodes; two proper edges, a self-loop on node 11 and an edge from
    the index 99 that no node carries. *)
Definition sample_graph : SankeyGraph :=
  {| nodes :=
       Some [ {| index := Some 10%Z; tech_flow := provider_ref "p-10" "Rolling";
                 direct_result := Some 2%float; total_result := Some 8%float |};
              {| index := Some 11%Z; tech_flow := provider_ref "p-11" "Smelting";
                 direct_result := Some (-5)%float; total_result := Some 5%float |};
              {| index := Some 12%Z; tech_flow := None;
                 direct_result := None; total_result := Some 1%float |} ];
     edges :=
       Some [ {| node_index := Some 10%Z; provider_index := Some 11%Z;
                 upstream_share := Some 0.625%float |};
              {| node_index := Some 10%Z; provider_index := Some 12%Z;
                 upstream_share := Some 0.125%float |};
              {| node_index := Some 11%Z; provider_index := Some 11%Z;
                 upstream_share := Some 0.5%float |};
              {| node_index := Some 10%Z; provider_index := Some 99%Z;
                 upstream_share := Some 0.25%float |} ];
     root_index := Some 10%Z |}.

(** A result handle with the given submission error, poll answers and total
    impact of the selected category. *)
Definition result_with (err : option string)
    (states : nat -> Raises ResultState) (total : option float) : Result :=
  {| result_error := err;
     get_state := states;
     get_impact_categories := inr sample_cats;
     get_total_impacts := inr sample_totals;
     get_total_impact_value_of :=
       fun cat => inr (Some {| impact_category := Some cat; amount := total |});
     get_sankey_graph := fun _ => inr (Some sample_graph);
     dispose := inr tt |}.

Definition sample_result : Result :=
  result_with None (states_after 2 ready) (Some (-8)%float).

Definition engine_with (conn : Raises unit) (methods : list Ref)
    (result : Result) : Engine :=
  {| connect := conn;
     get_product_system :=
       fun uid => inr (if String.eqb uid "s-1" then Some system_demo else None);
     get_impact_method :=
       fun _ => inr (Some {| impact_categories := Some sample_cats |});
     get_impact_category := fun _ => inr (Some {| ref_unit := Some "kg CO2 eq" |});
     get_descriptors_of :=
       fun t => inr (match t with TImpactMethod => methods | _ => [] end);
     calculate := fun _ => inr result;
     to_dict := fun d => VDict [("@id", Py.of_opt_str (ref_id d));
                                ("name", Py.of_opt_str (ref_name d))] |}.

Definition sample_engine : Engine :=
  engine_with (inr tt) sample_methods sample_result.

(** An engine that cannot be reached. *)
Definition offline_engine : Engine :=
  engine_with (inl "Connection refused") sample_methods sample_result.

(** The value a handler returns, [VNone] standing for a raise. *)
Definition returned (o : outcome pyval * World) : pyval :=
  match fst o with
  | Return v => v
  | _ => VNone
  end.

Definition sample_response : pyval :=
  Eval vm_compute in
    returned (get_sankey sample_engine 241 "s-1" None None 25 0 world0).

(** ** Polling, as the statements describe it *)

(** The value of [waited] after [k] rounds of the polling loop. *)
Definition waited_after (k : nat) : float :=
  Nat.iter k (fun waited => PrimFloat.add waited 0.5) 0%float.

(** The calls of [k] inconclusive rounds: a poll, then a sleep of 0.5 s. *)
Definition poll_trace (k : nat) : list IpcCall :=
  concat (repeat [GetState; Sleep 0.5] k).

(** Poll number [k] answers with a state that is neither ready nor in error. *)
Definition inconclusive (result : Result) (k : nat) : Prop :=
  exists state,
    get_state result k = inr state /\
    Py.truthy_bool (is_ready state) = false /\
    Py.truthy_str (error state) = false.

Definition is_poll (c : IpcCall) : bool :=
  match c with
  | GetState => true
  | _ => false
  end.

(** The number of polls in a sequence of calls. *)
Definition polls_in (t : list IpcCall) : nat :=
  List.length (List.filter is_poll t).

(** The world after the further calls [t]. *)
Definition extend_trace (w : World) (t : list IpcCall) : World :=
  {| client := client w; trace := trace w ++ t |}.

(** ** Response shaping, as the statements describe it *)

(** The position in the node list of the last node that carries [key] as
    its index. *)
Fixpoint position_of (ns : list SankeyNode) (key : option Z) : option nat :=
  match ns with
  | [] => None
  | node :: ns' =>
      match position_of ns' key with
      | Some p => Some (S p)
      | None => if bool_decide (index node = key) then Some 0 else None
      end
  end.

(** A percentage share of [x] in the amended sense: relative to the
    absolute total impact, and to 1.0 when the total impact is zero. *)
Definition share_pct (x total_impact : float) : float :=
  PrimFloat.mul
    (PrimFloat.abs
       (PrimFloat.div x
          (if Py.float_ne total_impact 0 then PrimFloat.abs total_impact
           else 1%float)))
    100.

(** The share as the specification words it: relative to the absolute
    total impact in every case. *)
Definition stated_pct (x total_impact : float) : float :=
  PrimFloat.mul
    (PrimFloat.abs (PrimFloat.div x (PrimFloat.abs total_impact))) 100.

(** A normal response is the empty result or the reshaped, non-empty
    graph the engine returned. *)
Definition shaped_or_empty (resp : pyval) : Prop :=
  resp = _empty_result \/
  exists total_impact ref_unit target_impact sankey_graph node ns,
    nodes sankey_graph = Some (node :: ns) /\
    shape_response total_impact ref_unit target_impact sankey_graph
                   (node :: ns) = inr resp.


(** The positions an edge is emitted with: those of its provider and of
    its node, when both indices belong to a node and the positions differ. *)
Definition edge_positions (ns : list SankeyNode) (e : SankeyEdge)
  : option (nat * nat) :=
  match position_of ns (provider_index e), position_of ns (node_index e) with
  | Some src, Some tgt => if Nat.eqb src tgt then None else Some (src, tgt)
  | _, _ => None
  end.

(** The source and target of an emitted link. *)
Definition link_ends (l : pyval) : option pyval * option pyval :=
  (dict_get "source" l, dict_get "target" l).

Definition ends_of_positions (st : nat * nat) : option pyval * option pyval :=
  (Some (VInt (Z.of_nat (fst st))), Some (VInt (Z.of_nat (snd st)))).

Definition response_keys : list string :=
  ["nodes"; "links"; "totalImpact"; "impactUnit"; "impactCategory"; "rootIndex"].

(** The sample engine with other total impacts of the selected category. *)
Definition zero_total_engine : Engine :=
  engine_with (inr tt) sample_methods
              (result_with None (states_after 0 ready) (Some 0%float)).

Definition nan_total_engine : Engine :=
  engine_with (inr tt) sample_methods
              (result_with None (states_after 0 ready) (Some PrimFloat.nan)).

Definition zero_total_response : pyval :=
  Eval vm_compute in
    returned (get_sankey zero_total_engine 241 "s-1" None None 25 0 world0).

(** An entry of [nodes] whose two percentages are the shares, computed by
    [pct_of], of its direct and upstream results in the response's total
    impact. *)
Definition shares_of_total (pct_of : float -> float -> float)
    (resp entry : pyval) : Prop :=
  exists t d u,
    dict_get "totalImpact" resp = Some (VFloat t) /\
    dict_get "direct" entry = Some (VFloat d) /\
    dict_get "upstream" entry = Some (VFloat u) /\
    dict_get "directPct" entry = Some (VFloat (pct_of d t)) /\
    dict_get "upstreamPct" entry = Some (VFloat (pct_of u t)).

(** An entry of [links] between two different positions below [n]. *)
Definition valid_link (n : nat) (link : pyval) : Prop :=
  exists src tgt,
    link_ends link = ends_of_positions (src, tgt) /\
    src < n /\ tgt < n /\ src <> tgt.

(** ** Calls and errors, as the statements describe them *)

(** A computation only adds calls to the trace and keeps the client. *)
Definition extends {A} (c : M A) : Prop :=
  forall w, exists t, snd (c w) = extend_trace w t.

(** The calls of [get_sankey] up to the submission of the calculation. *)
Definition submission_calls (system_id : string) (setup : CalculationSetup)
  : list IpcCall :=
  [GetEntity TProductSystem (Some system_id);
   GetDescriptors TImpactMethod;
   Calculate setup].

(** The sample engine with a calculation that is refused at submission,
    and with one that fails during the second poll. *)
Definition submission_error_engine : Engine :=
  engine_with (inr tt) sample_methods
              (result_with (Some "Out of memory") (states_after 0 ready)
                           (Some 1%float)).

Definition polling_error_engine : Engine :=
  engine_with (inr tt) sample_methods
              (result_with None (states_after 1 (failed "Singular matrix"))
                           (Some 1%float)).

(** ** Loop invariants *)

(** What the selection loop knows after the categories [seen]. *)
Definition best_inv (m : gmap (option string) float) (seen : list Ref)
    (st : option Ref * float) : Prop :=
  match fst st with
  | None =>
      snd st = 0%float /\
      forall c, In c seen -> PrimFloat.ltb 0 (abs_amount m c) = false
  | Some best =>
      In best seen /\ snd st = abs_amount m best /\
      PrimFloat.ltb 0 (snd st) = true /\
      forall c, In c seen -> PrimFloat.ltb (snd st) (abs_amount m c) = false
  end.


(** ** Notions of the further properties *)

Definition is_dispose (c : IpcCall) : bool :=
  match c with
  | Dispose => true
  | _ => false
  end.

(** The number of disposals in a sequence of calls. *)
Definition disposes_in (t : list IpcCall) : nat :=
  List.length (List.filter is_dispose t).

(** The reference unit the backend reads off the engine's answer to the
    lookup of an impact category. *)
Definition ref_unit_answer (answer : Raises (option ImpactCategory)) : string :=
  match answer with
  | inr (Some c) => str_or (ref_unit c) ""
  | _ => ""
  end.

(** The names [get_descriptors] accepts as a model type. *)
Definition model_type_names : list string :=
  ["ProductSystem"; "ImpactCategory"; "ImpactMethod"; "Process"; "Flow"].

(** The status codes of the errors [get_sankey] answers with. *)
Definition sankey_error_statuses : list Z := [503; 404; 500; 504]%Z.

(** An engine whose calculation never gets ready, and one whose category
    lookups fail. *)
Definition never_ready_engine : Engine :=
  engine_with (inr tt) sample_methods
              (result_with None (fun _ => inr pending) (Some 1%float)).

Definition no_units_engine : Engine :=
  {| connect := inr tt;
     get_product_system := get_product_system sample_engine;
     get_impact_method := get_impact_method sample_engine;
     get_impact_category := fun _ => inl "Read timed out";
     get_descriptors_of := get_descriptors_of sample_engine;
     calculate := calculate sample_engine;
     to_dict := to_dict sample_engine |}.

Definition connected0 : World :=
  {| client := Some (ClientOn 8080); trace := [] |}.

(** A float field of a dict that is not negative. *)
Definition nonneg_field (key : string) (d : pyval) : Prop :=
  exists x, dict_get key d = Some (VFloat x) /\ PrimFloat.ltb x 0 = false.

(** A string field of a dict that is not empty. *)
Definition nonempty_field (key : string) (d : pyval) : Prop :=
  exists u, dict_get key d = Some (VStr u) /\ u <> "".

(** The flag [isRoot] of an entry of [nodes]. *)
Definition is_root_flag (b : bool) (entry : pyval) : Prop :=
  dict_get "isRoot" entry = Some (VBool b).

(** What the selection loop knows about ties after the categories [seen]:
    the best category so far is preceded only by categories with a smaller
    absolute amount, or with one that is not a number. *)
Definition tie_inv (m : gmap (option string) float) (seen : list Ref)
    (st : option Ref * float) : Prop :=
  match fst st with
  | None =>
      snd st = 0%float /\
      forall c, In c seen -> PrimFloat.ltb 0 (abs_amount m c) = false
  | Some best =>
      snd st = abs_amount m best /\
      exists before after,
        seen = before ++ best :: after /\
        (forall c, In c before ->
           PrimFloat.ltb (abs_amount m c) (abs_amount m best) = true \/
           PrimFloat.eqb (abs_amount m c) (abs_amount m c) = false) /\
        (forall c, In c after ->
           PrimFloat.ltb (abs_amount m best) (abs_amount m c) = false)
  end.

(** Two categories with total impacts of the same absolute value. *)
Definition tied_totals : list ImpactValue :=
  [ {| impact_category := Some cat_land; amount := Some 1%float |};
    {| impact_category := Some cat_climate; amount := Some 3%float |};
    {| impact_category := Some cat_water; amount := Some (-3)%float |} ].

(** An engine that is lost during the second poll. *)
Definition lost_engine : Engine :=
  engine_with (inr tt) sample_methods
    (result_with None
       (fun k => if Nat.ltb k 1 then inr pending else inl "Connection reset")
       (Some 1%float)).

(** * Properties *)

(** ** Facts about IEEE comparison used below *)

Section FloatFacts.

Lemma SFltb_irrefl (a : spec_float) : SFltb a a = false.
Proof.
  unfold SFltb, SFcompare.
  destruct a as [s|s| |s m e]; try (destruct s); try reflexivity;
    rewrite Z.compare_refl;
    change (Pos.compare_cont Eq m m) with (Pos.compare m m);
    rewrite Pos.compare_refl; reflexivity.
Qed.

Lemma SFltb_trans (a b c : spec_float) :
  SFltb a b = true -> SFltb b c = true -> SFltb a c = true.
Proof.
  unfold SFltb, SFcompare.
  destruct a as [sa|sa| |sa ma ea], b as [sb|sb| |sb mb eb],
           c as [sc|sc| |sc mc ec];
    try (destruct sa); try (destruct sb); try (destruct sc);
    try discriminate; try reflexivity;
    change (Pos.compare_cont Eq ma mb) with (Pos.compare ma mb);
    change (Pos.compare_cont Eq mb mc) with (Pos.compare mb mc);
    change (Pos.compare_cont Eq ma mc) with (Pos.compare ma mc);
    destruct (Z.compare_spec ea eb), (Z.compare_spec eb ec),
             (Z.compare_spec ea ec);
    try discriminate; try reflexivity; try lia;
    destruct (Pos.compare_spec ma mb), (Pos.compare_spec mb mc),
             (Pos.compare_spec ma mc);
    simpl; try discriminate; try reflexivity; try lia.
Qed.

Lemma ltb_irrefl (x : float) : PrimFloat.ltb x x = false.
Proof. rewrite ltb_spec. apply SFltb_irrefl. Qed.

Lemma ltb_trans (x y z : float) :
  PrimFloat.ltb x y = true -> PrimFloat.ltb y z = true ->
  PrimFloat.ltb x z = true.
Proof. rewrite !ltb_spec. apply SFltb_trans. Qed.

(** Nothing exceeds a maximum that already exceeds something larger. *)
Lemma ltb_false_trans (best x y : float) :
  PrimFloat.ltb best y = true -> PrimFloat.ltb best x = false ->
  PrimFloat.ltb y x = false.
Proof.
  intros Hby Hbx. destruct (PrimFloat.ltb y x) eqn:E; [|reflexivity].
  rewrite (ltb_trans _ _ _ Hby E) in Hbx. discriminate.
Qed.

Lemma Prim2SF_zero : Prim2SF 0 = S754_zero false.
Proof. reflexivity. Qed.

(** An absolute value that does not exceed zero is exceeded by no
    absolute value that does not exceed zero either. *)
Lemma abs_not_pos_max (x y : float) :
  PrimFloat.ltb 0 (PrimFloat.abs y) = false ->
  PrimFloat.ltb 0 (PrimFloat.abs x) = false ->
  PrimFloat.ltb (PrimFloat.abs x) (PrimFloat.abs y) = false.
Proof.
  rewrite !ltb_spec, !abs_spec, Prim2SF_zero.
  destruct (Prim2SF x) as [[]|[]| |[] mx ex],
           (Prim2SF y) as [[]|[]| |[] my ey];
    simpl; intros; try discriminate; reflexivity.
Qed.

Lemma eqb_zero_not_pos (x : float) :
  PrimFloat.eqb x 0 = true -> PrimFloat.ltb 0 x = false.
Proof.
  rewrite FloatAxioms.eqb_spec, ltb_spec, Prim2SF_zero.
  destruct (Prim2SF x) as [[]|[]| |[] m e]; simpl; intros;
    try discriminate; reflexivity.
Qed.

(** The two zeros have the same absolute value. *)
Lemma abs_of_zero (x : float) :
  PrimFloat.eqb x 0 = true -> PrimFloat.abs x = 0%float.
Proof.
  intros H. apply Prim2SF_inj. rewrite abs_spec, Prim2SF_zero.
  rewrite FloatAxioms.eqb_spec, Prim2SF_zero in H.
  destruct (Prim2SF x) as [[]|[]| |[] m e]; simpl in *;
    try discriminate; reflexivity.
Qed.

Lemma abs_nonzero (t : float) :
  PrimFloat.eqb t 0 = false -> PrimFloat.eqb (PrimFloat.abs t) 0 = false.
Proof.
  rewrite !FloatAxioms.eqb_spec, abs_spec, Prim2SF_zero.
  destruct (Prim2SF t) as [[]|[]| |[] m e]; simpl; intros;
    try discriminate; reflexivity.
Qed.

Lemma abs_not_neg (t : float) : PrimFloat.ltb (PrimFloat.abs t) 0 = false.
Proof.
  rewrite ltb_spec, abs_spec, Prim2SF_zero.
  destruct (Prim2SF t) as [[]|[]| |[] m e]; reflexivity.
Qed.

Lemma abs_nonzero_pos (t : float) :
  PrimFloat.is_nan t = false -> PrimFloat.eqb t 0 = false ->
  PrimFloat.ltb 0 (PrimFloat.abs t) = true.
Proof.
  unfold PrimFloat.is_nan.
  rewrite !FloatAxioms.eqb_spec, ltb_spec, abs_spec, Prim2SF_zero.
  destruct (Prim2SF t) as [[]|[]| |[] m e]; simpl; intros;
    try discriminate; reflexivity.
Qed.

End FloatFacts.

(** ** Category resolution *)

Section CategoryResolution.

Lemma abs_float_or (a : option float) :
  PrimFloat.abs (Py.float_or a 0) = PrimFloat.abs (default 0%float a).
Proof.
  destruct a as [f|]; simpl; [|reflexivity].
  destruct (PrimFloat.eqb f 0) eqn:E; simpl; [|reflexivity].
  rewrite (abs_of_zero f E). reflexivity.
Qed.

(** The dict [impacts_by_id] read back: the last entry for a key wins. *)
Lemma impacts_by_id_lookup (tis : list ImpactValue) (k : option string) :
  impacts_by_id_of tis !! k =
  (fun ti => Py.float_or (amount ti) 0) <$>
    List.find (fun ti => bool_decide (ref_id <$> impact_category ti = Some k))
              (rev tis).
Proof.
  unfold impacts_by_id_of.
  induction tis as [|ti tis IH] using rev_ind; [reflexivity|].
  rewrite fold_left_app, rev_app_distr. simpl.
  destruct (impact_category ti) as [c|] eqn:Ec; simpl.
  - destruct (decide (ref_id c = k)) as [->|Hne].
    + rewrite lookup_insert_eq, bool_decide_eq_true_2 by reflexivity.
      reflexivity.
    + rewrite lookup_insert_ne by exact Hne.
      rewrite bool_decide_eq_false_2 by congruence. exact IH.
  - exact IH.
Qed.

(** [abs_amount] on the dict is the absolute total impact of the category. *)
Lemma abs_amount_total (tis : list ImpactValue) (cat : Ref) :
  abs_amount (impacts_by_id_of tis) cat =
  PrimFloat.abs (total_amount_of tis cat).
Proof.
  unfold abs_amount, total_amount_of. rewrite impacts_by_id_lookup.
  destruct (List.find _ (rev tis)) as [ti|]; simpl; [|reflexivity].
  apply abs_float_or.
Qed.

Lemma best_step_inv m seen st cat :
  best_inv m seen st -> best_inv m (seen ++ [cat]) (best_step m st cat).
Proof.
  destruct st as [[best|] a]; unfold best_inv, best_step, Py.float_gt; simpl.
  - intros (Hin & Ha & Hpos & Hmax).
    destruct (PrimFloat.ltb a (abs_amount m cat)) eqn:E; simpl.
    + repeat split.
      * apply in_or_app. right. left. reflexivity.
      * exact (ltb_trans _ _ _ Hpos E).
      * intros c [Hc|[<-|[]]]%in_app_or.
        -- exact (ltb_false_trans _ _ _ E (Hmax c Hc)).
        -- apply ltb_irrefl.
    + repeat split; auto.
      * apply in_or_app. left. exact Hin.
      * intros c [Hc|[<-|[]]]%in_app_or; auto.
  - intros (Ha & Hmax). subst a.
    destruct (PrimFloat.ltb 0 (abs_amount m cat)) eqn:E; simpl.
    + repeat split.
      * apply in_or_app. right. left. reflexivity.
      * exact E.
      * intros c [Hc|[<-|[]]]%in_app_or.
        -- exact (ltb_false_trans _ _ _ E (Hmax c Hc)).
        -- apply ltb_irrefl.
    + split; [reflexivity|].
      intros c [Hc|[<-|[]]]%in_app_or; auto.
Qed.

Lemma best_fold_inv m cats :
  forall seen st,
    best_inv m seen st ->
    best_inv m (seen ++ cats) (fold_left (best_step m) cats st).
Proof.
  induction cats as [|cat cats IH]; intros seen st Hinv; simpl.
  - rewrite app_nil_r. exact Hinv.
  - replace (seen ++ cat :: cats) with ((seen ++ [cat]) ++ cats)
      by (rewrite <- app_assoc; reflexivity).
    apply IH, best_step_inv, Hinv.
Qed.

(** The automatic selection, on a non-empty list: a category no other
    category exceeds in absolute total impact, and the first one when no
    category has a non-zero total. *)
Lemma auto_select_largest (tis : list ImpactValue) (cats : list Ref) :
  cats <> [] ->
  exists best,
    auto_select tis cats = Some best /\ In best cats /\
    (forall cat, In cat cats ->
       Py.float_gt (PrimFloat.abs (total_amount_of tis cat))
                   (PrimFloat.abs (total_amount_of tis best)) = false) /\
    ((forall cat, In cat cats ->
        PrimFloat.eqb (PrimFloat.abs (total_amount_of tis cat)) 0 = true) ->
     head cats = Some best).
Proof.
  intros Hne. unfold auto_select, Py.float_gt.
  pose proof (best_fold_inv (impacts_by_id_of tis) cats [] (None, 0%float)) as H.
  simpl in H. specialize (H (conj eq_refl (fun c (F : In c []) => match F with end))).
  unfold best_inv in H.
  destruct (fold_left _ cats (None, 0%float)) as [[best|] a]; simpl in *.
  - destruct H as (Hin & Ha & Hpos & Hmax). subst a.
    exists best. repeat split; auto.
    + intros cat Hc. rewrite <- !abs_amount_total. auto.
    + intros Hzero. specialize (Hzero best Hin).
      rewrite <- abs_amount_total in Hzero.
      rewrite (eqb_zero_not_pos _ Hzero) in Hpos. discriminate.
  - destruct H as (_ & Hmax).
    destruct cats as [|c0 cats]; [congruence|].
    exists c0. simpl. repeat split; auto.
    intros cat Hc. apply abs_not_pos_max.
    + rewrite <- abs_amount_total. apply Hmax. exact Hc.
    + rewrite <- abs_amount_total. apply Hmax. left. reflexivity.
Qed.

Lemma find_by_id_none (cats : list Ref) (wanted : string) :
  (forall cat, In cat cats -> ref_id cat <> Some wanted) ->
  find_by_id cats wanted = None.
Proof.
  unfold find_by_id. induction cats as [|c cats IH]; intros H; simpl.
  - reflexivity.
  - rewrite bool_decide_eq_false_2 by (apply H; left; reflexivity).
    apply IH. intros cat Hc. apply H. right. exact Hc.
Qed.

Lemma find_by_id_first (cats : list Ref) (wanted : string) :
  (exists cat, In cat cats /\ ref_id cat = Some wanted) ->
  exists cat before after,
    cats = before ++ cat :: after /\ ref_id cat = Some wanted /\
    (forall c, In c before -> ref_id c <> Some wanted) /\
    find_by_id cats wanted = Some cat.
Proof.
  unfold find_by_id. induction cats as [|c cats IH]; intros (x & Hin & Hx).
  - destruct Hin.
  - simpl. destruct (decide (ref_id c = Some wanted)) as [Hc|Hc].
    + exists c, [], cats. rewrite bool_decide_eq_true_2 by exact Hc.
      repeat split; auto; try (intros ? []).
    + rewrite bool_decide_eq_false_2 by exact Hc.
      destruct Hin as [->|Hin]; [contradiction|].
      destruct IH as (cat & before & after & -> & Hid & Hbefore & Hfind).
      { exists x. split; assumption. }
      exists cat, (c :: before), after. repeat split; auto;
        try (intros c' [<-|Hc']; auto).
Qed.

(** C1. Without an explicit impact category id (none given, an empty one,
    or one that no category carries), [_resolve_impact_category] reads the
    total impacts and returns, for a non-empty category list, a category of
    the list whose absolute total impact no category of the list exceeds,
    a missing entry or amount counting as 0.0; when every category's
    absolute total impact is zero it returns the first category. *)
Theorem resolve_auto_selects_largest
    (result : Result) (impact_cats : list Ref)
    (impact_category_id : option string)
    (total_impacts_list : list ImpactValue) (w : World) :
  Py.truthy_str impact_category_id = false \/
    (forall cat, In cat impact_cats -> ref_id cat <> impact_category_id) ->
  get_total_impacts result = inr total_impacts_list ->
  impact_cats <> [] ->
  exists best,
    _resolve_impact_category result impact_cats impact_category_id w
      = (Return (Some best), log_call GetTotalImpacts w) /\
    In best impact_cats /\
    (forall cat, In cat impact_cats ->
       Py.float_gt (PrimFloat.abs (total_amount_of total_impacts_list cat))
                   (PrimFloat.abs (total_amount_of total_impacts_list best))
       = false) /\
    ((forall cat, In cat impact_cats ->
        PrimFloat.eqb (PrimFloat.abs (total_amount_of total_impacts_list cat)) 0
        = true) ->
     head impact_cats = Some best).
Proof.
  intros Hid Htis Hne.
  destruct (auto_select_largest total_impacts_list impact_cats Hne)
    as (best & Hsel & Hin & Hmax & Hzero).
  exists best. repeat split; auto.
  unfold _resolve_impact_category.
  assert (Hnone : match impact_category_id with
                  | Some ((String _ _) as wanted) => find_by_id impact_cats wanted
                  | _ => None
                  end = None).
  { destruct impact_category_id as [[|a wanted]|]; try reflexivity.
    destruct Hid as [Hid|Hid]; [discriminate|].
    apply find_by_id_none. exact Hid. }
  rewrite Hnone. unfold bind, ipc, ret. rewrite Htis, Hsel. reflexivity.
Qed.

Lemma resolve_auto_selects_largest_witness :
  exists best,
    _resolve_impact_category sample_result sample_cats None world0
      = (Return (Some best), log_call GetTotalImpacts world0) /\
    In best sample_cats /\
    (forall cat, In cat sample_cats ->
       Py.float_gt (PrimFloat.abs (total_amount_of sample_totals cat))
                   (PrimFloat.abs (total_amount_of sample_totals best))
       = false) /\
    ((forall cat, In cat sample_cats ->
        PrimFloat.eqb (PrimFloat.abs (total_amount_of sample_totals cat)) 0
        = true) ->
     head sample_cats = Some best).
Proof.
  apply (resolve_auto_selects_largest sample_result sample_cats None
           sample_totals world0).
  - left. reflexivity.
  - reflexivity.
  - discriminate.
Defined.

(** C5, as stated, fails for the empty id: the category with id [""] is in
    the list and the id [""] is supplied, yet the category with the
    largest absolute total impact is returned. *)
Lemma resolve_blank_id_counterexample :
  In cat_blank [cat_climate; cat_blank] /\
  ref_id cat_blank = Some "" /\
  fst (_resolve_impact_category sample_result [cat_climate; cat_blank]
         (Some "") world0) = Return (Some cat_climate) /\
  cat_climate <> cat_blank.
Proof.
  split; [right; left; reflexivity|].
  split; [reflexivity|].
  split; [vm_compute; reflexivity|discriminate].
Qed.

(** C5, amended. For every category list containing a category whose id
    equals the supplied, non-empty impact category id,
    [_resolve_impact_category] returns the first category with that id,
    without consulting the result's total impacts. *)
Theorem resolve_explicit_id
    (result : Result) (impact_cats : list Ref) (wanted : string) (w : World) :
  wanted <> "" ->
  (exists cat, In cat impact_cats /\ ref_id cat = Some wanted) ->
  exists cat before after,
    impact_cats = before ++ cat :: after /\
    ref_id cat = Some wanted /\
    (forall c, In c before -> ref_id c <> Some wanted) /\
    _resolve_impact_category result impact_cats (Some wanted) w
      = (Return (Some cat), w).
Proof.
  intros Hne Hex.
  destruct (find_by_id_first impact_cats wanted Hex)
    as (cat & before & after & Hsplit & Hid & Hbefore & Hfind).
  exists cat, before, after. repeat split; auto.
  unfold _resolve_impact_category.
  destruct wanted as [|a wanted]; [congruence|].
  rewrite Hfind. reflexivity.
Qed.

Lemma resolve_explicit_id_witness :
  exists cat before after,
    sample_cats = before ++ cat :: after /\
    ref_id cat = Some "c-3" /\
    (forall c, In c before -> ref_id c <> Some "c-3") /\
    _resolve_impact_category sample_result sample_cats (Some "c-3") world0
      = (Return (Some cat), world0).
Proof.
  apply (resolve_explicit_id sample_result sample_cats "c-3" world0).
  - discriminate.
  - exists cat_land. split; [right; right; left|]; reflexivity.
Defined.

End CategoryResolution.

(** ** Result polling *)

Section Polling.

Lemma extend_trace_nil (w : World) : extend_trace w [] = w.
Proof. destruct w. unfold extend_trace. simpl. rewrite app_nil_r. reflexivity. Qed.

Lemma extend_trace_app (w : World) (t u : list IpcCall) :
  extend_trace (extend_trace w t) u = extend_trace w (t ++ u).
Proof. unfold extend_trace. simpl. rewrite app_assoc. reflexivity. Qed.

Lemma log_call_extend (c : IpcCall) (w : World) :
  log_call c w = extend_trace w [c].
Proof. reflexivity. Qed.

Lemma waited_after_S (k : nat) :
  waited_after (S k) = PrimFloat.add (waited_after k) 0.5.
Proof. reflexivity. Qed.

(** Sums of 0.5 are exact: the loop condition holds for exactly the first
    240 rounds, and [waited] is then 120. *)
Lemma waited_lt (k : nat) :
  k < 240 -> PrimFloat.ltb (waited_after k) 120 = true.
Proof.
  intros Hk.
  assert (H : forallb (fun k => PrimFloat.ltb (waited_after k) 120)
                      (seq 0 240) = true) by (vm_compute; reflexivity).
  rewrite forallb_forall in H. apply H. apply in_seq. lia.
Qed.

Lemma waited_240 : waited_after 240 = 120%float.
Proof. vm_compute. reflexivity. Qed.

Lemma waited_240_stop : PrimFloat.ltb (waited_after 240) 120 = false.
Proof. vm_compute. reflexivity. Qed.

Lemma wait_loop_S fuel result max_wait k waited :
  wait_loop (S fuel) result max_wait k waited =
  if PrimFloat.ltb waited max_wait then
    state <- ipc GetState (get_state result k) ;;
    if Py.truthy_bool (is_ready state) then ret tt
    else
      match error state with
      | Some ((String _ _) as e) =>
          raise (HTTPException 500 ("Calculation error: " ++ e))
      | _ =>
          _ <- sleep 0.5 ;;
          wait_loop fuel result max_wait (S k) (PrimFloat.add waited 0.5)
      end
  else raise (HTTPException 504 "Calculation timed out").
Proof. reflexivity. Qed.

Lemma poll_trace_S (j : nat) :
  poll_trace (S j) = [GetState; Sleep 0.5] ++ poll_trace j.
Proof. reflexivity. Qed.

(** One inconclusive round. *)
Lemma wait_loop_pending fuel result k w :
  k < 240 -> inconclusive result k ->
  wait_loop (S fuel) result 120 k (waited_after k) w =
  wait_loop fuel result 120 (S k) (waited_after (S k))
            (extend_trace w [GetState; Sleep 0.5]).
Proof.
  intros Hk (state & Hs & Hready & Herr).
  rewrite wait_loop_S, (waited_lt k Hk).
  unfold bind at 1. unfold ipc. rewrite Hs, Hready.
  assert (Hw : log_call (Sleep 0.5) (log_call GetState w)
               = extend_trace w [GetState; Sleep 0.5]).
  { rewrite !log_call_extend, extend_trace_app. reflexivity. }
  destruct (error state) as [[|a e]|]; try discriminate;
    unfold bind, sleep; rewrite Hw, waited_after_S; reflexivity.
Qed.

(** [j] inconclusive rounds in a row. *)
Lemma wait_loop_pending_n result :
  forall j k fuel w,
    k + j <= 240 ->
    (forall i, k <= i < k + j -> inconclusive result i) ->
    wait_loop (j + fuel) result 120 k (waited_after k) w =
    wait_loop fuel result 120 (k + j) (waited_after (k + j))
              (extend_trace w (poll_trace j)).
Proof.
  induction j as [|j IH]; intros k fuel w Hle Hinc.
  - rewrite Nat.add_0_r, extend_trace_nil. reflexivity.
  - change (S j + fuel) with (S (j + fuel)).
    rewrite wait_loop_pending by (try apply Hinc; lia).
    rewrite IH by (try (intros i Hi; apply Hinc); lia).
    rewrite extend_trace_app, <- poll_trace_S.
    replace (S k + j) with (k + S j) by lia. reflexivity.
Qed.

Lemma polls_in_app (t u : list IpcCall) :
  polls_in (t ++ u) = polls_in t + polls_in u.
Proof. unfold polls_in. rewrite List.filter_app, length_app. reflexivity. Qed.

(** The loop ends within the polls that are left, whatever the engine
    answers. *)
Lemma wait_loop_terminates result :
  forall n k fuel w,
    k + n = 240 -> n < fuel ->
    exists o t,
      wait_loop fuel result 120 k (waited_after k) w = (o, extend_trace w t) /\
      o <> OutOfFuel /\ polls_in t <= n.
Proof.
  induction n as [|n IH]; intros k fuel w Hk Hfuel;
    (destruct fuel as [|fuel]; [lia|]); rewrite wait_loop_S.
  - replace k with 240 by lia. rewrite waited_240_stop.
    exists (Raise (HTTPException 504 "Calculation timed out")), [].
    unfold raise. rewrite extend_trace_nil. repeat split; [discriminate|].
    unfold polls_in. simpl. lia.
  - rewrite waited_lt by lia. unfold bind at 1. unfold ipc.
    rewrite log_call_extend.
    destruct (get_state result k) as [msg|state].
    + exists (Raise (Exception msg)), [GetState].
      repeat split; [discriminate|]. unfold polls_in. simpl. lia.
    + destruct (Py.truthy_bool (is_ready state)).
      * exists (Return tt), [GetState].
        repeat split; [discriminate|]. unfold polls_in. simpl. lia.
      * assert (Hcont :
          exists o t,
            (_ <- sleep 0.5 ;;
             wait_loop fuel result 120 (S k)
                       (PrimFloat.add (waited_after k) 0.5))
              (extend_trace w [GetState]) = (o, extend_trace w t) /\
            o <> OutOfFuel /\ polls_in t <= S n).
        { unfold bind, sleep. rewrite log_call_extend, extend_trace_app.
          rewrite <- waited_after_S.
          destruct (IH (S k) fuel (extend_trace w ([GetState] ++ [Sleep 0.5])))
            as (o & t & Heq & Ho & Ht); [lia|lia|].
          exists o, (([GetState] ++ [Sleep 0.5]) ++ t).
          rewrite Heq, extend_trace_app. repeat split; [exact Ho|].
          rewrite polls_in_app. unfold polls_in at 1. simpl. lia. }
        destruct (error state) as [[|a e]|]; try exact Hcont.
        exists (Raise (HTTPException 500 ("Calculation error: " ++ String a e))),
               [GetState].
        repeat split; [discriminate|]. unfold polls_in. simpl. lia.
Qed.

(** The run up to the first conclusive poll [k]. *)
Lemma wait_loop_reach result fuel k w :
  k < 240 -> 240 < fuel ->
  (forall i, i < k -> inconclusive result i) ->
  exists fuel',
    _wait_for_result fuel result 120 w =
    wait_loop (S fuel') result 120 k (waited_after k)
              (extend_trace w (poll_trace k)).
Proof.
  intros Hk Hfuel Hinc. exists (fuel - k - 1). unfold _wait_for_result.
  replace fuel with (k + S (fuel - k - 1)) at 1 by lia.
  change 0%float with (waited_after 0).
  rewrite (wait_loop_pending_n result k 0) by (try (intros; apply Hinc); lia).
  reflexivity.
Qed.

Lemma wait_returns_when_ready result fuel w k state :
  240 < fuel -> k < 240 ->
  (forall i, i < k -> inconclusive result i) ->
  get_state result k = inr state ->
  Py.truthy_bool (is_ready state) = true ->
  _wait_for_result fuel result 120 w
  = (Return tt, extend_trace w (poll_trace k ++ [GetState])).
Proof.
  intros Hfuel Hk Hinc Hs Hready.
  destruct (wait_loop_reach result fuel k w Hk Hfuel Hinc) as (fuel' & ->).
  rewrite wait_loop_S, (waited_lt k Hk). unfold bind, ipc, ret.
  rewrite Hs, Hready, log_call_extend, extend_trace_app. reflexivity.
Qed.

Lemma wait_raises_on_error result fuel w k state e :
  240 < fuel -> k < 240 ->
  (forall i, i < k -> inconclusive result i) ->
  get_state result k = inr state ->
  Py.truthy_bool (is_ready state) = false ->
  error state = Some e -> e <> "" ->
  _wait_for_result fuel result 120 w
  = (Raise (HTTPException 500 ("Calculation error: " ++ e)),
     extend_trace w (poll_trace k ++ [GetState])).
Proof.
  intros Hfuel Hk Hinc Hs Hready He Hne.
  destruct (wait_loop_reach result fuel k w Hk Hfuel Hinc) as (fuel' & ->).
  rewrite wait_loop_S, (waited_lt k Hk). unfold bind, ipc, raise.
  rewrite Hs, Hready, He, log_call_extend, extend_trace_app.
  destruct e as [|a e]; [congruence|reflexivity].
Qed.

Lemma wait_times_out result fuel w :
  240 < fuel ->
  (forall i, i < 240 -> inconclusive result i) ->
  _wait_for_result fuel result 120 w
  = (Raise (HTTPException 504 "Calculation timed out"),
     extend_trace w (poll_trace 240)).
Proof.
  intros Hfuel H. unfold _wait_for_result.
  replace fuel with (240 + S (fuel - 241)) by lia.
  change 0%float with (waited_after 0).
  rewrite (wait_loop_pending_n result 240 0)
    by (try (intros; apply H); lia).
  rewrite wait_loop_S. change (0 + 240) with 240.
  rewrite waited_240_stop. reflexivity.
Qed.

(** C3. With enough fuel for its at most 240 rounds, [_wait_for_result]
    polls the state, sleeping 0.5 s after each inconclusive answer: it
    returns at the first poll whose state is ready; it raises HTTP 500 with
    the state's error message at the first poll whose state is not ready
    and reports an error (a non-empty message); after 240 inconclusive
    polls, 120 s of waiting, it raises HTTP 504; and whatever the engine
    answers it ends after at most 240 polls. *)
Theorem wait_for_result_polls (result : Result) (fuel : nat) (w : World) :
  240 < fuel ->
  (forall k state,
     k < 240 -> (forall i, i < k -> inconclusive result i) ->
     get_state result k = inr state ->
     Py.truthy_bool (is_ready state) = true ->
     _wait_for_result fuel result 120 w
     = (Return tt, extend_trace w (poll_trace k ++ [GetState]))) /\
  (forall k state e,
     k < 240 -> (forall i, i < k -> inconclusive result i) ->
     get_state result k = inr state ->
     Py.truthy_bool (is_ready state) = false ->
     error state = Some e -> e <> "" ->
     _wait_for_result fuel result 120 w
     = (Raise (HTTPException 500 ("Calculation error: " ++ e)),
        extend_trace w (poll_trace k ++ [GetState]))) /\
  ((forall i, i < 240 -> inconclusive result i) ->
   waited_after 240 = 120%float /\
   _wait_for_result fuel result 120 w
   = (Raise (HTTPException 504 "Calculation timed out"),
      extend_trace w (poll_trace 240))) /\
  (exists o t,
     _wait_for_result fuel result 120 w = (o, extend_trace w t) /\
     o <> OutOfFuel /\ polls_in t <= 240).
Proof.
  intros Hfuel. repeat split.
  - intros k state Hk Hinc Hs Hready.
    exact (wait_returns_when_ready result fuel w k state Hfuel Hk Hinc Hs
             Hready).
  - intros k state e Hk Hinc Hs Hready He Hne.
    exact (wait_raises_on_error result fuel w k state e Hfuel Hk Hinc Hs
             Hready He Hne).
  - apply wait_times_out; assumption.
  - unfold _wait_for_result. change 0%float with (waited_after 0).
    apply wait_loop_terminates; lia.
Qed.

Lemma wait_for_result_polls_witness :
  _wait_for_result 241 sample_result 120 world0
  = (Return tt, extend_trace world0 (poll_trace 2 ++ [GetState])).
Proof.
  destruct (wait_for_result_polls sample_result 241 world0) as [Hready _].
  - lia.
  - apply (Hready 2 ready).
    + lia.
    + intros i Hi. exists pending.
      destruct i as [|[|i]]; [repeat split..|lia].
    + reflexivity.
    + reflexivity.
Defined.

End Polling.

(** ** The Sankey endpoint: where a normal response comes from *)

Section SankeyReturns.

Ltac case_scrutinee H :=
  match type of H with
  | context [match ?c with _ => _ end] =>
      let E := fresh "E" in destruct c eqn:E; simpl in H; try discriminate H
  end.

Lemma sankey_of_result_returns eng result cid max_nodes min_share w resp w' :
  sankey_of_result eng result cid max_nodes min_share w = (Return resp, w') ->
  shaped_or_empty resp.
Proof.
  unfold sankey_of_result, bind, ipc, dispose_result, lift, ret.
  intros H.
  repeat case_scrutinee H;
    try (injection H as <- <-; left; reflexivity).
  injection H as <- <-. right.
  repeat eexists; eassumption.
Qed.

Lemma try_500_returns {A} (c : M A) w a w' :
  try_500 c w = (Return a, w') -> c w = (Return a, w').
Proof.
  unfold try_500. destruct (c w) as [[x|e|] w1]; intros H;
    try discriminate H. exact H.
Qed.

Lemma get_sankey_returns eng fuel system_id mid cid max_nodes min_share
      w resp w' :
  get_sankey eng fuel system_id mid cid max_nodes min_share w
  = (Return resp, w') ->
  shaped_or_empty resp.
Proof.
  unfold get_sankey, bind at 1.
  destruct (get_client eng w) as [[[cl|]|e|] w1]; try discriminate.
  intros H. apply try_500_returns in H.
  unfold bind, ipc, ret, raise in H.
  repeat case_scrutinee H;
    try (injection H as <- <-; left; reflexivity).
  eapply sankey_of_result_returns. eassumption.
Qed.

End SankeyReturns.

(** ** Response shaping *)

Section Shaping.

Lemma abs_total_nonzero (t : float) :
  PrimFloat.eqb (abs_total_of t) 0 = false.
Proof.
  unfold abs_total_of, Py.float_ne.
  destruct (PrimFloat.eqb t 0) eqn:E; simpl.
  - reflexivity.
  - apply abs_nonzero. exact E.
Qed.

Lemma pct_value (x t : float) :
  pct x (abs_total_of t) = inr (VFloat (share_pct x t)).
Proof.
  unfold pct, Py.float_ne, Py.truediv.
  rewrite abs_total_nonzero. reflexivity.
Qed.

Lemma node_entry_value (g : SankeyGraph) (t : float) (node : SankeyNode) :
  exists name flow_name process_id,
    node_entry g (abs_total_of t) node =
    inr (VDict
           [("name", VStr name);
            ("flowName", VStr flow_name);
            ("direct", VFloat (Py.float_or (direct_result node) 0));
            ("upstream", VFloat (Py.float_or (total_result node) 0));
            ("directPct",
             VFloat (share_pct (Py.float_or (direct_result node) 0) t));
            ("upstreamPct",
             VFloat (share_pct (Py.float_or (total_result node) 0) t));
            ("processId", VStr process_id);
            ("isRoot", VBool (opt_Z_eqb (index node) (root_index g)))]).
Proof.
  unfold node_entry. rewrite !pct_value. simpl.
  do 3 eexists. reflexivity.
Qed.

Lemma position_of_lt ns key p :
  position_of ns key = Some p -> p < List.length ns.
Proof.
  revert p. induction ns as [|node ns IH]; intros p; simpl;
    [discriminate|].
  destruct (position_of ns key) as [q|].
  - intros [= <-]. specialize (IH q eq_refl). lia.
  - destruct (bool_decide (index node = key)); [|discriminate].
    intros [= <-]. lia.
Qed.

Lemma position_of_none ns key :
  ~ In key (map index ns) -> position_of ns key = None.
Proof.
  induction ns as [|node ns IH]; simpl; intros Hnot; [reflexivity|].
  rewrite IH by tauto.
  rewrite bool_decide_eq_false_2 by tauto. reflexivity.
Qed.

(** The node loop never raises: it appends one entry per node and maps
    every index to the position of its last node. *)
Lemma nodes_loop_value (g : SankeyGraph) (t : float) :
  forall ns i nodes_data (index_to_pos : gmap (option Z) nat),
  exists out (index_to_pos' : gmap (option Z) nat),
    nodes_loop g (abs_total_of t) ns i nodes_data index_to_pos
    = inr (nodes_data ++ out, index_to_pos') /\
    Forall2 (fun node entry => node_entry g (abs_total_of t) node = inr entry)
            ns out /\
    forall key,
      index_to_pos' !! key =
      match position_of ns key with
      | Some p => Some (i + p)
      | None => index_to_pos !! key
      end.
Proof.
  induction ns as [|node ns IH]; intros i nodes_data index_to_pos; simpl.
  - exists [], index_to_pos. rewrite app_nil_r. repeat split. constructor.
  - destruct (node_entry_value g t node) as (n & f & pid & Hentry).
    rewrite Hentry. simpl.
    destruct (IH (S i) (nodes_data ++ [VDict
               [("name", VStr n); ("flowName", VStr f);
                ("direct", VFloat (Py.float_or (direct_result node) 0));
                ("upstream", VFloat (Py.float_or (total_result node) 0));
                ("directPct",
                 VFloat (share_pct (Py.float_or (direct_result node) 0) t));
                ("upstreamPct",
                 VFloat (share_pct (Py.float_or (total_result node) 0) t));
                ("processId", VStr pid);
                ("isRoot", VBool (opt_Z_eqb (index node) (root_index g)))]])
                (<[index node := i]> index_to_pos))
      as (out & idx' & Hloop & Hall & Hidx).
    eexists (_ :: out), idx'. rewrite Hloop, <- app_assoc.
    split; [reflexivity|]. split.
    + constructor; [exact Hentry|exact Hall].
    + intros key. rewrite Hidx.
      destruct (position_of ns key) as [p|].
      * f_equal. lia.
      * destruct (decide (index node = key)) as [->|Hne].
        -- rewrite lookup_insert_eq, bool_decide_eq_true_2 by reflexivity.
           f_equal. lia.
        -- rewrite lookup_insert_ne, bool_decide_eq_false_2 by exact Hne.
           reflexivity.
Qed.

Lemma links_loop_omap (index_to_pos : gmap (option Z) nat) (a : float) :
  forall es links_data,
    links_loop index_to_pos a es links_data
    = links_data ++ omap (link_entry index_to_pos a) es.
Proof.
  unfold links_loop.
  induction es as [|e es IH]; intros links_data; simpl.
  - rewrite app_nil_r. reflexivity.
  - rewrite IH. destruct (link_entry index_to_pos a e); simpl.
    + rewrite <- app_assoc. reflexivity.
    + reflexivity.
Qed.

(** An edge is emitted only with two different positions of the index
    map, and then with the scaled share as its value. *)
Lemma link_entry_value (index_to_pos : gmap (option Z) nat) (t : float)
      (e : SankeyEdge) (l : pyval) :
  link_entry index_to_pos (abs_total_of t) e = Some l ->
  exists src tgt,
    index_to_pos !! provider_index e = Some src /\
    index_to_pos !! node_index e = Some tgt /\
    src <> tgt /\
    l = VDict [("source", VInt (Z.of_nat src));
               ("target", VInt (Z.of_nat tgt));
               ("value",
                VFloat (PrimFloat.abs
                          (PrimFloat.mul (Py.float_or (upstream_share e) 0)
                                         (abs_total_of t))));
               ("share", VFloat (Py.float_or (upstream_share e) 0))].
Proof.
  unfold link_entry, Py.float_ne. rewrite abs_total_nonzero. simpl.
  destruct (index_to_pos !! provider_index e) as [src|]; [|discriminate].
  destruct (index_to_pos !! node_index e) as [tgt|]; [|discriminate].
  destruct (Nat.eqb src tgt) eqn:E; simpl; [discriminate|].
  intros [= <-]. exists src, tgt. apply Nat.eqb_neq in E. auto.
Qed.

(** Response shaping never raises, and this is its response. *)
Lemma shape_response_value (t : float) (ru : string) (target : Ref)
      (g : SankeyGraph) (ns : list SankeyNode) :
  exists out (index_to_pos : gmap (option Z) nat),
    Forall2 (fun node entry => node_entry g (abs_total_of t) node = inr entry)
            ns out /\
    (forall key, index_to_pos !! key = position_of ns key) /\
    shape_response t ru target g ns =
    inr (VDict
           [("nodes", VList out);
            ("links",
             VList (omap (link_entry index_to_pos (abs_total_of t))
                         (default [] (edges g))));
            ("totalImpact", VFloat t);
            ("impactUnit", VStr (impact_unit_of ru target));
            ("impactCategory", Py.of_opt_str (ref_name target));
            ("rootIndex",
             VInt (Z.of_nat (default 0 (index_to_pos !! root_index g))))]).
Proof.
  unfold shape_response.
  destruct (nodes_loop_value g t ns 0 [] ∅) as (out & idx & Hloop & Hall & Hidx).
  exists out, idx. split; [exact Hall|]. split.
  - intros key. rewrite Hidx. rewrite lookup_empty.
    destruct (position_of ns key); reflexivity.
  - rewrite Hloop. simpl.
    destruct (edges g) as [es|]; simpl; [|reflexivity].
    rewrite links_loop_omap. reflexivity.
Qed.

End Shaping.

(** ** The Sankey response *)

Section SankeyResponse.

(** C6. Every normal response of the Sankey endpoint, the empty result
    included, is a JSON object with exactly the keys nodes, links,
    totalImpact, impactUnit, impactCategory and rootIndex. *)
Theorem sankey_response_keys eng fuel system_id mid cid max_nodes min_share
        w resp w' :
  get_sankey eng fuel system_id mid cid max_nodes min_share w
  = (Return resp, w') ->
  dict_keys resp = response_keys /\ dict_keys _empty_result = response_keys.
Proof.
  intros H. split; [|reflexivity].
  destruct (get_sankey_returns _ _ _ _ _ _ _ _ _ _ H)
    as [->|(t & ru & target & g & node & ns & _ & Hshape)]; [reflexivity|].
  destruct (shape_response_value t ru target g (node :: ns))
    as (out & idx & _ & _ & Heq).
  rewrite Heq in Hshape. injection Hshape as <-. reflexivity.
Qed.

Lemma sankey_response_keys_witness :
  dict_keys sample_response = response_keys /\
  dict_keys _empty_result = response_keys.
Proof.
  apply (sankey_response_keys sample_engine 241 "s-1" None None 25 0 world0
           sample_response
           (snd (get_sankey sample_engine 241 "s-1" None None 25 0 world0))).
  vm_compute. reflexivity.
Defined.

Lemma Forall2_In_r {A B} (R : A -> B -> Prop) l l' y :
  Forall2 R l l' -> In y l' -> exists x, In x l /\ R x y.
Proof.
  induction 1 as [|x y' l l' HR _ IH]; intros Hin; [destruct Hin|].
  destruct Hin as [<-|Hin].
  - exists x. split; [left; reflexivity|exact HR].
  - destruct (IH Hin) as (x' & Hx' & HR'). exists x'. split; [right|]; auto.
Qed.

(** C2, as stated, fails when the total impact is zero: the percentages
    are then relative to 1.0, not to the absolute total impact. *)
Lemma zero_total_pct_counterexample :
  fst (get_sankey zero_total_engine 241 "s-1" None None 25 0 world0)
  = Return zero_total_response /\
  dict_get "totalImpact" zero_total_response = Some (VFloat 0) /\
  exists entry,
    In entry (list_items (dict_get "nodes" zero_total_response)) /\
    dict_get "direct" entry = Some (VFloat 2) /\
    dict_get "directPct" entry = Some (VFloat 200) /\
    ~ shares_of_total stated_pct zero_total_response entry.
Proof.
  split; [vm_compute; reflexivity|].
  split; [reflexivity|].
  eexists. split; [left; reflexivity|].
  split; [reflexivity|]. split; [reflexivity|].
  intros (t & d & u & Ht & Hd & Hu & Hp & _).
  apply (f_equal float_of) in Ht, Hd, Hp.
  vm_compute in Ht, Hd. subst t d.
  apply (f_equal PrimFloat.is_infinity) in Hp.
  vm_compute in Hp. discriminate Hp.
Qed.

(** C2, amended. For every node of a normal Sankey response, directPct
    and upstreamPct are |direct / abs_total| * 100 and
    |upstream / abs_total| * 100, where abs_total is the absolute total
    impact when the total impact is not zero and 1.0 when it is zero; so
    they are the shares relative to the absolute total impact whenever
    the total impact is not zero. *)
Theorem sankey_node_percentages eng fuel system_id mid cid max_nodes min_share
        w resp w' :
  get_sankey eng fuel system_id mid cid max_nodes min_share w
  = (Return resp, w') ->
  Forall (shares_of_total share_pct resp)
         (list_items (dict_get "nodes" resp)) /\
  (forall x t, Py.float_ne t 0 = true -> share_pct x t = stated_pct x t) /\
  (forall x t, Py.float_ne t 0 = false ->
     share_pct x t = PrimFloat.mul (PrimFloat.abs (PrimFloat.div x 1)) 100).
Proof.
  intros H. split; [|split].
  - destruct (get_sankey_returns _ _ _ _ _ _ _ _ _ _ H)
      as [->|(t & ru & target & g & node & ns & _ & Hshape)];
      [constructor|].
    destruct (shape_response_value t ru target g (node :: ns))
      as (out & idx & Hall & _ & Heq).
    rewrite Heq in Hshape. injection Hshape as <-.
    apply List.Forall_forall. intros entry Hin. cbn in Hin.
    destruct (Forall2_In_r _ _ _ _ Hall Hin) as (nd & _ & Hentry).
    destruct (node_entry_value g t nd) as (n & f & pid & Hval).
    rewrite Hval in Hentry. injection Hentry as <-.
    exists t, (Py.float_or (direct_result nd) 0),
           (Py.float_or (total_result nd) 0).
    repeat split; reflexivity.
  - intros x t Ht. unfold share_pct, stated_pct. rewrite Ht. reflexivity.
  - intros x t Ht. unfold share_pct. rewrite Ht. reflexivity.
Qed.

Lemma sankey_node_percentages_witness :
  Forall (shares_of_total share_pct sample_response)
         (list_items (dict_get "nodes" sample_response)) /\
  (forall x t, Py.float_ne t 0 = true -> share_pct x t = stated_pct x t) /\
  (forall x t, Py.float_ne t 0 = false ->
     share_pct x t = PrimFloat.mul (PrimFloat.abs (PrimFloat.div x 1)) 100).
Proof.
  apply (sankey_node_percentages sample_engine 241 "s-1" None None 25 0
           world0 sample_response
           (snd (get_sankey sample_engine 241 "s-1" None None 25 0 world0))).
  vm_compute. reflexivity.
Defined.

Lemma edge_positions_dropped (ns : list SankeyNode) (e : SankeyEdge) :
  ~ In (provider_index e) (map index ns) \/
  ~ In (node_index e) (map index ns) \/
  provider_index e = node_index e ->
  edge_positions ns e = None.
Proof.
  unfold edge_positions. intros [H|[H|H]].
  - rewrite (position_of_none _ _ H). reflexivity.
  - rewrite (position_of_none _ _ H).
    destruct (position_of ns (provider_index e)); reflexivity.
  - rewrite H. destruct (position_of ns (node_index e)); [|reflexivity].
    rewrite Nat.eqb_refl. reflexivity.
Qed.

Lemma link_entry_ends (index_to_pos : gmap (option Z) nat) (a : float)
      (ns : list SankeyNode) (e : SankeyEdge) :
  (forall key, index_to_pos !! key = position_of ns key) ->
  link_ends <$> link_entry index_to_pos a e
  = ends_of_positions <$> edge_positions ns e.
Proof.
  intros Hidx. unfold link_entry, edge_positions. rewrite !Hidx.
  destruct (position_of ns (provider_index e)) as [src|]; [|reflexivity].
  destruct (position_of ns (node_index e)) as [tgt|]; [|reflexivity].
  destruct (Nat.eqb src tgt); reflexivity.
Qed.

(** The emitted links are those of the edges that have two different
    positions, in the order of the edges. *)
Lemma links_of_edges (index_to_pos : gmap (option Z) nat) (a : float)
      (ns : list SankeyNode) (es : list SankeyEdge) :
  (forall key, index_to_pos !! key = position_of ns key) ->
  map link_ends (omap (link_entry index_to_pos a) es)
  = map ends_of_positions (omap (edge_positions ns) es).
Proof.
  intros Hidx. induction es as [|e es IH]; [reflexivity|].
  pose proof (link_entry_ends index_to_pos a ns e Hidx) as He.
  cbn [omap list_omap].
  destruct (link_entry index_to_pos a e) as [l|],
           (edge_positions ns e) as [st|];
    cbv [fmap option_fmap option_map] in He; try discriminate He.
  - assert (Hl : link_ends l = ends_of_positions st) by congruence.
    cbn [map]. rewrite Hl, IH. reflexivity.
  - exact IH.
Qed.

(** C8. In every normal Sankey response each link has a source and a
    target that are two different positions of the returned node list;
    the links are those of the edges whose provider index and node index
    both belong to a returned node, at different positions, so that edges
    with an index that belongs to no returned node and self-loop edges
    are dropped. *)
Theorem sankey_links_valid eng fuel system_id mid cid max_nodes min_share
        w resp w' :
  get_sankey eng fuel system_id mid cid max_nodes min_share w
  = (Return resp, w') ->
  Forall (valid_link (List.length (list_items (dict_get "nodes" resp))))
         (list_items (dict_get "links" resp)) /\
  (resp = _empty_result \/
   exists total_impact ref_unit target_impact sankey_graph ns,
     nodes sankey_graph = Some ns /\
     shape_response total_impact ref_unit target_impact sankey_graph ns
     = inr resp /\
     List.length (list_items (dict_get "nodes" resp)) = List.length ns /\
     map link_ends (list_items (dict_get "links" resp))
     = map ends_of_positions
           (omap (edge_positions ns) (default [] (edges sankey_graph)))) /\
  (forall ns e,
     ~ In (provider_index e) (map index ns) \/
     ~ In (node_index e) (map index ns) \/
     provider_index e = node_index e ->
     edge_positions ns e = None).
Proof.
  intros H. split; [|split; [|exact edge_positions_dropped]].
  - destruct (get_sankey_returns _ _ _ _ _ _ _ _ _ _ H)
      as [->|(t & ru & target & g & node & ns & _ & Hshape)];
      [constructor|].
    destruct (shape_response_value t ru target g (node :: ns))
      as (out & idx & Hall & Hidx & Heq).
    rewrite Heq in Hshape. injection Hshape as <-.
    apply List.Forall_forall. intros link Hin. cbn in Hin.
    apply list_elem_of_In, list_elem_of_omap in Hin.
    destruct Hin as (e & _ & Hlink).
    destruct (link_entry_value idx t e link Hlink)
      as (src & tgt & Hsrc & Htgt & Hne & ->).
    exists src, tgt.
    change (List.length (list_items (dict_get "nodes" _)))
      with (List.length out).
    rewrite <- (Forall2_length _ _ _ Hall).
    rewrite Hidx in Hsrc, Htgt.
    apply position_of_lt in Hsrc, Htgt.
    repeat split; auto.
  - destruct (get_sankey_returns _ _ _ _ _ _ _ _ _ _ H)
      as [->|(t & ru & target & g & node & ns & Hnodes & Hshape)];
      [left; reflexivity|right].
    exists t, ru, target, g, (node :: ns).
    split; [exact Hnodes|]. split; [exact Hshape|].
    destruct (shape_response_value t ru target g (node :: ns))
      as (out & idx & Hall & Hidx & Heq).
    rewrite Heq in Hshape. injection Hshape as <-.
    change (List.length (list_items (dict_get "nodes" _)))
      with (List.length out).
    change (list_items (dict_get "links" _))
      with (omap (link_entry idx (abs_total_of t)) (default [] (edges g))).
    split.
    + symmetry. exact (Forall2_length _ _ _ Hall).
    + apply links_of_edges. exact Hidx.
Qed.

Lemma sankey_links_valid_witness :
  Forall (valid_link
            (List.length (list_items (dict_get "nodes" sample_response))))
         (list_items (dict_get "links" sample_response)) /\
  (sample_response = _empty_result \/
   exists total_impact ref_unit target_impact sankey_graph ns,
     nodes sankey_graph = Some ns /\
     shape_response total_impact ref_unit target_impact sankey_graph ns
     = inr sample_response /\
     List.length (list_items (dict_get "nodes" sample_response))
     = List.length ns /\
     map link_ends (list_items (dict_get "links" sample_response))
     = map ends_of_positions
           (omap (edge_positions ns) (default [] (edges sankey_graph)))) /\
  (forall ns e,
     ~ In (provider_index e) (map index ns) \/
     ~ In (node_index e) (map index ns) \/
     provider_index e = node_index e ->
     edge_positions ns e = None).
Proof.
  apply (sankey_links_valid sample_engine 241 "s-1" None None 25 0
           world0 sample_response
           (snd (get_sankey sample_engine 241 "s-1" None None 25 0 world0))).
  vm_compute. reflexivity.
Defined.

(** C9, as stated, fails for a total impact that is not a number: the
    engine reports NaN, the response carries it as its total impact, and
    the divisor is then NaN, which is not greater than zero. *)
Lemma nan_total_divisor_counterexample :
  dict_get "totalImpact"
    (returned (get_sankey nan_total_engine 241 "s-1" None None 25 0 world0))
  = Some (VFloat PrimFloat.nan) /\
  total_impact_of (Some {| impact_category := None;
                           amount := Some PrimFloat.nan |}) = PrimFloat.nan /\
  Py.float_gt (abs_total_of PrimFloat.nan) 0 = false.
Proof. repeat split; vm_compute; reflexivity. Qed.

(** C9, amended. For every total impact the divisor abs_total is the
    absolute total impact when the total impact is not zero and 1.0
    otherwise; it is never zero and never negative, and it is greater
    than zero unless the total impact is NaN.  So the guards against a
    zero divisor are never taken: a percentage is always the division's
    result, a link value always the scaled share, and response shaping
    never raises a division by zero. *)
Theorem abs_total_never_zero (total_impact : float) :
  abs_total_of total_impact
  = (if Py.float_ne total_impact 0 then PrimFloat.abs total_impact
     else 1%float) /\
  Py.float_ne (abs_total_of total_impact) 0 = true /\
  PrimFloat.ltb (abs_total_of total_impact) 0 = false /\
  (PrimFloat.is_nan total_impact = false ->
   Py.float_gt (abs_total_of total_impact) 0 = true) /\
  (forall x,
     Py.truediv x (abs_total_of total_impact)
     = inr (PrimFloat.div x (abs_total_of total_impact)) /\
     pct x (abs_total_of total_impact)
     = inr (VFloat (PrimFloat.mul
                      (PrimFloat.abs
                         (PrimFloat.div x (abs_total_of total_impact)))
                      100))) /\
  (forall (index_to_pos : gmap (option Z) nat) edge link,
     link_entry index_to_pos (abs_total_of total_impact) edge = Some link ->
     dict_get "value" link
     = Some (VFloat (PrimFloat.abs
                       (PrimFloat.mul (Py.float_or (upstream_share edge) 0)
                                      (abs_total_of total_impact))))) /\
  (forall ref_unit target_impact sankey_graph ns,
     exists resp,
       shape_response total_impact ref_unit target_impact sankey_graph ns
       = inr resp).
Proof.
  split; [reflexivity|]. split; [|split; [|split; [|split; [|split]]]].
  - unfold Py.float_ne. rewrite abs_total_nonzero. reflexivity.
  - unfold abs_total_of, Py.float_ne.
    destruct (PrimFloat.eqb total_impact 0); simpl.
    + reflexivity.
    + apply abs_not_neg.
  - intros Hnan. unfold Py.float_gt, abs_total_of, Py.float_ne.
    destruct (PrimFloat.eqb total_impact 0) eqn:E; simpl.
    + reflexivity.
    + apply abs_nonzero_pos; assumption.
  - intros x. split.
    + unfold Py.truediv. rewrite abs_total_nonzero. reflexivity.
    + apply pct_value.
  - intros idx edge link Hlink.
    destruct (link_entry_value idx total_impact edge link Hlink)
      as (src & tgt & _ & _ & _ & ->).
    reflexivity.
  - intros ru target g ns.
    destruct (shape_response_value total_impact ru target g ns)
      as (out & idx & _ & _ & Heq).
    eexists. exact Heq.
Qed.

End SankeyResponse.

(** ** Connection and error handling of the endpoints *)

Section Endpoints.

Lemma get_client_offline eng w msg :
  client w = None -> connect eng = inl msg ->
  get_client eng w = (Return None, log_call (Connect 8080) w).
Proof. intros Hc Hconn. unfold get_client. rewrite Hc, Hconn. reflexivity. Qed.

(** C7. When no client handle exists and none can be created, the status
    endpoint reports the status disconnected, and the descriptor listing,
    the method category listing and the Sankey endpoint raise HTTP 503
    with the detail [openLCA not connected]; the only call made is the
    attempt to connect. *)
Theorem disconnected_endpoints (eng : Engine) (w : World) (msg : string) :
  client w = None ->
  connect eng = inl msg ->
  get_status eng w
  = (Return (VDict [("status", VStr "disconnected")]),
     log_call (Connect 8080) w) /\
  (forall model_type,
     get_descriptors eng model_type w
     = (Raise (HTTPException 503 "openLCA not connected"),
        log_call (Connect 8080) w)) /\
  (forall method_id,
     get_method_categories eng method_id w
     = (Raise (HTTPException 503 "openLCA not connected"),
        log_call (Connect 8080) w)) /\
  (forall fuel system_id impact_method_id impact_category_id max_nodes
          min_share,
     get_sankey eng fuel system_id impact_method_id impact_category_id
                max_nodes min_share w
     = (Raise (HTTPException 503 "openLCA not connected"),
        log_call (Connect 8080) w)).
Proof.
  intros Hc Hconn.
  pose proof (get_client_offline eng w msg Hc Hconn) as Hcl.
  repeat split; intros;
    unfold get_status, get_descriptors, get_method_categories, get_sankey,
           bind; rewrite Hcl; reflexivity.
Qed.

Lemma disconnected_endpoints_witness :
  get_status offline_engine world0
  = (Return (VDict [("status", VStr "disconnected")]),
     log_call (Connect 8080) world0) /\
  (forall model_type,
     get_descriptors offline_engine model_type world0
     = (Raise (HTTPException 503 "openLCA not connected"),
        log_call (Connect 8080) world0)) /\
  (forall method_id,
     get_method_categories offline_engine method_id world0
     = (Raise (HTTPException 503 "openLCA not connected"),
        log_call (Connect 8080) world0)) /\
  (forall fuel system_id impact_method_id impact_category_id max_nodes
          min_share,
     get_sankey offline_engine fuel system_id impact_method_id
                impact_category_id max_nodes min_share world0
     = (Raise (HTTPException 503 "openLCA not connected"),
        log_call (Connect 8080) world0)).
Proof.
  apply (disconnected_endpoints offline_engine world0 "Connection refused");
    reflexivity.
Defined.

Lemma extends_ret {A} (a : A) : extends (ret a).
Proof. intros w. exists []. simpl. rewrite extend_trace_nil. reflexivity. Qed.

Lemma extends_raise {A} (e : exn) : extends (@raise A e).
Proof. intros w. exists []. simpl. rewrite extend_trace_nil. reflexivity. Qed.

Lemma extends_out_of_fuel {A} : extends (@out_of_fuel A).
Proof. intros w. exists []. simpl. rewrite extend_trace_nil. reflexivity. Qed.

Lemma extends_ipc {A} (c : IpcCall) (r : Raises A) : extends (ipc c r).
Proof. intros w. exists [c]. reflexivity. Qed.

Lemma extends_sleep (x : float) : extends (sleep x).
Proof. intros w. exists [Sleep x]. reflexivity. Qed.

Lemma extends_lift {A} (r : Raises A) : extends (lift r).
Proof. intros w. exists []. simpl. rewrite extend_trace_nil. reflexivity. Qed.

Lemma extends_bind {A B} (c : M A) (k : A -> M B) :
  extends c -> (forall a, extends (k a)) -> extends (bind c k).
Proof.
  intros Hc Hk w. unfold bind. destruct (Hc w) as (t & Ht).
  destruct (c w) as [[a|e|] w1]; simpl in Ht; subst w1;
    try (exists t; reflexivity).
  destruct (Hk a (extend_trace w t)) as (u & Hu).
  exists (t ++ u). rewrite Hu, extend_trace_app. reflexivity.
Qed.

Lemma extends_try_500 {A} (c : M A) : extends c -> extends (try_500 c).
Proof.
  intros Hc w. unfold try_500. destruct (Hc w) as (t & Ht).
  destruct (c w) as [[a|e|] w1]; exists t; exact Ht.
Qed.

Lemma extends_try_pass {A} (c : M A) (d : A) :
  extends c -> extends (try_pass c d).
Proof.
  intros Hc w. unfold try_pass. destruct (Hc w) as (t & Ht).
  destruct (c w) as [[a|e|] w1]; exists t; exact Ht.
Qed.

Ltac extends_step :=
  first
    [ apply extends_ret | apply extends_raise | apply extends_out_of_fuel
    | apply extends_ipc | apply extends_sleep | apply extends_lift
    | apply extends_try_500 | apply extends_try_pass
    | apply extends_bind; [|intros ?]
    | match goal with
      | |- extends (match ?x with _ => _ end) => destruct x
      end ].

Lemma extends_wait_loop result max_wait :
  forall fuel k waited, extends (wait_loop fuel result max_wait k waited).
Proof.
  induction fuel as [|fuel IH]; intros k waited; simpl.
  - apply extends_out_of_fuel.
  - repeat first [apply IH | extends_step].
Qed.

Lemma extends_sankey_of_result eng result cid max_nodes min_share :
  extends (sankey_of_result eng result cid max_nodes min_share).
Proof.
  unfold sankey_of_result, dispose_result, _resolve_impact_category,
         _get_ref_unit, fetch_ref_unit.
  repeat extends_step.
Qed.

(** [get_sankey] up to the submission of the calculation. *)
Lemma get_sankey_submits eng fuel system_id mid cid max_nodes min_share
      w cl w1 system first methods :
  get_client eng w = (Return (Some cl), w1) ->
  get_product_system eng system_id = inr (Some system) ->
  get_descriptors_of eng TImpactMethod = inr (first :: methods) ->
  let setup :=
    {| setup_target := to_ref system;
       setup_impact_method := resolve_method (first :: methods) first mid;
       setup_amount := Py.float_or (target_amount system) 1 |} in
  let w3 := extend_trace w1 (submission_calls system_id setup) in
  get_sankey eng fuel system_id mid cid max_nodes min_share w
  = match calculate eng setup with
    | inl msg => (Raise (HTTPException 500 msg), w3)
    | inr result =>
        if Py.truthy_str (result_error result)
        then (Return _empty_result, w3)
        else try_500 (_ <- _wait_for_result fuel result 120 ;;
                      sankey_of_result eng result cid max_nodes min_share)
                     w3
    end.
Proof.
  intros Hcl Hsys Hmeth setup w3.
  assert (Hw3 : log_call (Calculate setup)
                  (log_call (GetDescriptors TImpactMethod)
                     (log_call (GetEntity TProductSystem (Some system_id)) w1))
                = w3).
  { unfold w3, submission_calls. rewrite !log_call_extend, !extend_trace_app.
    reflexivity. }
  unfold get_sankey, bind at 1. rewrite Hcl.
  unfold try_500 at 1, bind at 1, ipc at 1. rewrite Hsys.
  unfold bind at 1, ipc at 1. rewrite Hmeth.
  unfold bind at 1, ipc at 1. fold setup. rewrite Hw3.
  destruct (calculate eng setup) as [msg|result]; [reflexivity|].
  destruct (Py.truthy_str (result_error result)); [reflexivity|].
  unfold try_500. reflexivity.
Qed.

(** C4, as stated, fails for an error reported at submission: the handle
    carries an error, and the endpoint answers with the empty result as a
    normal response. *)
Lemma submission_error_counterexample :
  (forall setup,
     exists result,
       calculate submission_error_engine setup = inr result /\
       result_error result = Some "Out of memory") /\
  fst (get_sankey submission_error_engine 241 "s-1" None None 25 0 world0)
  = Return _empty_result.
Proof.
  split.
  - intros setup. eexists. split; reflexivity.
  - vm_compute. reflexivity.
Qed.

(** C4, amended. Once the engine is connected, the product system is
    found and an impact method exists: an exception raised by the
    submission of the calculation is mapped to HTTP 500 with its message
    as the detail; an error the engine reports while the result is polled
    is mapped to HTTP 500 with the detail [Calculation error: ] followed
    by the engine's message; a handle that carries an error at submission
    yields the empty result as a normal response. *)
Theorem calculation_errors_mapped eng fuel system_id mid cid max_nodes
        min_share w cl w1 system first methods answer :
  get_client eng w = (Return (Some cl), w1) ->
  get_product_system eng system_id = inr (Some system) ->
  get_descriptors_of eng TImpactMethod = inr (first :: methods) ->
  calculate eng
    {| setup_target := to_ref system;
       setup_impact_method := resolve_method (first :: methods) first mid;
       setup_amount := Py.float_or (target_amount system) 1 |} = answer ->
  240 < fuel ->
  match answer with
  | inl msg =>
      fst (get_sankey eng fuel system_id mid cid max_nodes min_share w)
      = Raise (HTTPException 500 msg)
  | inr result =>
      (Py.truthy_str (result_error result) = true ->
       fst (get_sankey eng fuel system_id mid cid max_nodes min_share w)
       = Return _empty_result) /\
      (Py.truthy_str (result_error result) = false ->
       forall k state e,
         k < 240 -> (forall i, i < k -> inconclusive result i) ->
         get_state result k = inr state ->
         Py.truthy_bool (is_ready state) = false ->
         error state = Some e -> e <> "" ->
         fst (get_sankey eng fuel system_id mid cid max_nodes min_share w)
         = Raise (HTTPException 500 ("Calculation error: " ++ e)))
  end.
Proof.
  intros Hcl Hsys Hmeth Hcalc Hfuel.
  rewrite (get_sankey_submits eng fuel system_id mid cid max_nodes min_share
             w cl w1 system first methods Hcl Hsys Hmeth).
  cbv zeta. rewrite Hcalc. destruct answer as [msg|result]; [reflexivity|].
  split.
  - intros ->. reflexivity.
  - intros -> k state e Hk Hinc Hs Hready He Hne.
    unfold try_500, bind.
    rewrite (wait_raises_on_error result fuel _ k state e Hfuel Hk Hinc Hs
               Hready He Hne).
    reflexivity.
Qed.

Lemma calculation_errors_mapped_witness :
  fst (get_sankey polling_error_engine 241 "s-1" None None 25 0 world0)
  = Raise (HTTPException 500 "Calculation error: Singular matrix").
Proof.
  refine (proj2
            (calculation_errors_mapped polling_error_engine 241 "s-1" None
               None 25 0 world0 (ClientOn 8080)
               (snd (get_client polling_error_engine world0))
               system_demo method_traci [method_recipe]
               (inr (result_with None
                       (states_after 1 (failed "Singular matrix"))
                       (Some 1%float)))
               eq_refl eq_refl eq_refl eq_refl _)
            eq_refl 1 (failed "Singular matrix") "Singular matrix"
            _ _ eq_refl eq_refl eq_refl _).
  - lia.
  - lia.
  - intros i Hi. exists pending. destruct i as [|i]; [repeat split|lia].
  - discriminate.
Defined.

Lemma find_by_id_split (refs before after : list Ref) (m : Ref)
      (wanted : string) :
  refs = before ++ m :: after ->
  ref_id m = Some wanted ->
  (forall m', In m' before -> ref_id m' <> Some wanted) ->
  find_by_id refs wanted = Some m.
Proof.
  intros -> Hm. unfold find_by_id.
  induction before as [|b before IH]; intros Hbefore; simpl.
  - rewrite bool_decide_eq_true_2 by exact Hm. reflexivity.
  - rewrite bool_decide_eq_false_2 by (apply Hbefore; left; reflexivity).
    apply IH. intros m' Hin. apply Hbefore. right. exact Hin.
Qed.

Lemma resolve_method_default (methods : list Ref) (first : Ref)
      (mid : option string) :
  Py.truthy_str mid = false \/
    (forall m, In m methods -> ref_id m <> mid) ->
  resolve_method methods first mid = Ref_of (ref_id first) (ref_name first).
Proof.
  intros H. unfold resolve_method.
  destruct mid as [[|a wanted]|]; try reflexivity.
  destruct H as [H|H]; [discriminate|].
  change (List.find _ methods) with (find_by_id methods (String a wanted)).
  rewrite (find_by_id_none methods (String a wanted) H). reflexivity.
Qed.

Lemma resolve_method_requested (methods before after : list Ref)
      (first m : Ref) (wanted : string) :
  wanted <> "" ->
  methods = before ++ m :: after ->
  ref_id m = Some wanted ->
  (forall m', In m' before -> ref_id m' <> Some wanted) ->
  resolve_method methods first (Some wanted)
  = Ref_of (ref_id m) (ref_name m).
Proof.
  intros Hne Hsplit Hm Hbefore. unfold resolve_method.
  destruct wanted as [|a wanted]; [congruence|].
  change (List.find _ methods) with (find_by_id methods (String a wanted)).
  rewrite (find_by_id_split methods before after m _ Hsplit Hm Hbefore).
  reflexivity.
Qed.

(** C10. Once the engine is connected and the product system is found:
    with a non-empty list of impact method descriptors the endpoint
    submits a calculation, whose impact method is the first descriptor
    when no method id is supplied or the supplied id matches no
    descriptor (and the first descriptor with the supplied id
    otherwise); with an empty list it returns the empty result and
    submits nothing. *)
Theorem sankey_method_resolution eng fuel system_id mid cid max_nodes
        min_share w cl w1 system methods :
  get_client eng w = (Return (Some cl), w1) ->
  get_product_system eng system_id = inr (Some system) ->
  get_descriptors_of eng TImpactMethod = inr methods ->
  match methods with
  | [] =>
      get_sankey eng fuel system_id mid cid max_nodes min_share w
      = (Return _empty_result,
         extend_trace w1 [GetEntity TProductSystem (Some system_id);
                          GetDescriptors TImpactMethod])
  | first :: _ =>
      exists method_ref rest,
        trace (snd (get_sankey eng fuel system_id mid cid max_nodes
                               min_share w))
        = trace w1 ++
          submission_calls system_id
            {| setup_target := to_ref system;
               setup_impact_method := method_ref;
               setup_amount := Py.float_or (target_amount system) 1 |} ++
          rest /\
        (Py.truthy_str mid = false \/
           (forall m, In m methods -> ref_id m <> mid) ->
         method_ref = Ref_of (ref_id first) (ref_name first)) /\
        (forall wanted before m after,
           mid = Some wanted -> wanted <> "" ->
           methods = before ++ m :: after ->
           ref_id m = Some wanted ->
           (forall m', In m' before -> ref_id m' <> Some wanted) ->
           method_ref = Ref_of (ref_id m) (ref_name m))
  end.
Proof.
  intros Hcl Hsys Hmeth. destruct methods as [|first methods].
  - unfold get_sankey, bind at 1. rewrite Hcl.
    unfold try_500, bind, ipc, ret. rewrite Hsys, Hmeth.
    rewrite !log_call_extend, extend_trace_app. reflexivity.
  - exists (resolve_method (first :: methods) first mid).
    rewrite (get_sankey_submits eng fuel system_id mid cid max_nodes
               min_share w cl w1 system first methods Hcl Hsys Hmeth).
    cbv zeta.
    set (setup := {| setup_target := to_ref system;
                     setup_impact_method :=
                       resolve_method (first :: methods) first mid;
                     setup_amount := Py.float_or (target_amount system) 1 |}).
    assert (Htrace : exists rest,
              trace (snd
                match calculate eng setup with
                | inl msg =>
                    (Raise (HTTPException 500 msg),
                     extend_trace w1 (submission_calls system_id setup))
                | inr result =>
                    if Py.truthy_str (result_error result)
                    then (Return _empty_result,
                          extend_trace w1 (submission_calls system_id setup))
                    else try_500
                           (_ <- _wait_for_result fuel result 120 ;;
                            sankey_of_result eng result cid max_nodes
                                             min_share)
                           (extend_trace w1 (submission_calls system_id setup))
                end)
              = trace w1 ++ submission_calls system_id setup ++ rest).
    { destruct (calculate eng setup) as [msg|result].
      - exists []. cbn [snd trace extend_trace]. rewrite app_nil_r.
        reflexivity.
      - destruct (Py.truthy_str (result_error result)).
        + exists []. cbn [snd trace extend_trace]. rewrite app_nil_r.
          reflexivity.
        + destruct (extends_try_500 _
                      (extends_bind _ _
                         (extends_wait_loop result 120 fuel 0 0)
                         (fun _ => extends_sankey_of_result eng result cid
                                     max_nodes min_share))
                      (extend_trace w1 (submission_calls system_id setup)))
            as (rest & Hrest).
          exists rest. unfold _wait_for_result. rewrite Hrest.
          cbn [snd trace extend_trace]. rewrite app_assoc. reflexivity. }
    destruct Htrace as (rest & Hrest). exists rest.
    split; [exact Hrest|]. split.
    + apply resolve_method_default.
    + intros wanted before m after -> Hne Hsplit Hm Hbefore.
      exact (resolve_method_requested _ before after first m wanted Hne
               Hsplit Hm Hbefore).
Qed.

Lemma sankey_method_resolution_witness :
  exists method_ref rest,
    trace (snd (get_sankey sample_engine 241 "s-1" (Some "m-9") None 25 0
                           world0))
    = trace (snd (get_client sample_engine world0)) ++
      submission_calls "s-1"
        {| setup_target := to_ref system_demo;
           setup_impact_method := method_ref;
           setup_amount := Py.float_or (target_amount system_demo) 1 |} ++
      rest /\
    (Py.truthy_str (Some "m-9") = false \/
       (forall m, In m sample_methods -> ref_id m <> Some "m-9") ->
     method_ref = Ref_of (ref_id method_traci) (ref_name method_traci)) /\
    (forall wanted before m after,
       Some "m-9" = Some wanted -> wanted <> "" ->
       sample_methods = before ++ m :: after ->
       ref_id m = Some wanted ->
       (forall m', In m' before -> ref_id m' <> Some wanted) ->
       method_ref = Ref_of (ref_id m) (ref_name m)).
Proof.
  exact (sankey_method_resolution sample_engine 241 "s-1" (Some "m-9") None
           25 0 world0 (ClientOn 8080)
           (snd (get_client sample_engine world0)) system_demo
           sample_methods eq_refl eq_refl eq_refl).
Defined.

End Endpoints.


(** ** The handlers on the sample data *)

Section Samples.

Example status_connected :
  get_status sample_engine world0
  = (Return (VDict [("status", VStr "connected"); ("version", VStr "2.6.0")]),
     set_client (ClientOn 8080) (log_call (Connect 8080) world0)).
Proof. reflexivity. Qed.

Example descriptors_of_unknown_type :
  fst (get_descriptors sample_engine "Actor" world0) = Return (VList []).
Proof. reflexivity. Qed.

Example descriptors_of_methods :
  fst (get_descriptors sample_engine "ImpactMethod" world0)
  = Return (VList [VDict [("@id", VStr "m-1"); ("name", VStr "TRACI")];
                   VDict [("@id", VStr "m-2"); ("name", VStr "ReCiPe")]]).
Proof. reflexivity. Qed.

Example method_categories_sample :
  fst (get_method_categories sample_engine "m-1" world0)
  = Return (VList [VDict [("@id", VStr "c-1"); ("name", VStr "Climate change");
                          ("refUnit", VStr "kg CO2 eq")];
                   VDict [("@id", VStr "c-2"); ("name", VStr "Water use");
                          ("refUnit", VStr "kg CO2 eq")];
                   VDict [("@id", VStr "c-3"); ("name", VStr "Land use");
                          ("refUnit", VStr "kg CO2 eq")]]).
Proof. reflexivity. Qed.

Example unknown_system_is_404 :
  fst (get_sankey sample_engine 241 "s-404" None None 25 0 world0)
  = Raise (HTTPException 404 "Product system not found").
Proof. reflexivity. Qed.

(** The category with the largest absolute total impact is the one with
    the total -3. *)
Example auto_select_sample :
  auto_select sample_totals sample_cats = Some cat_water.
Proof. vm_compute. reflexivity. Qed.

Example auto_select_all_zero :
  auto_select [] sample_cats = Some cat_climate.
Proof. vm_compute. reflexivity. Qed.

Example auto_select_no_category :
  auto_select sample_totals [] = None.
Proof. vm_compute. reflexivity. Qed.

(** An engine that never answers: 240 polls, then the timeout. *)
Example never_ready_times_out :
  let run := _wait_for_result 241 (result_with None (fun _ => inr pending) None)
                              120 world0 in
  fst run = Raise (HTTPException 504 "Calculation timed out") /\
  polls_in (trace (snd run)) = 240.
Proof. vm_compute. split; reflexivity. Qed.

(** One round short of the 240 the loop needs. *)
Example fuel_240_is_short :
  fst (_wait_for_result 240 (result_with None (fun _ => inr pending) None)
                        120 world0) = OutOfFuel.
Proof. vm_compute. reflexivity. Qed.

(** The two proper edges of the sample graph are kept, the self-loop and
    the edge from the unknown index 99 are dropped. *)
Example sample_links :
  map link_ends (list_items (dict_get "links" sample_response))
  = [ends_of_positions (1, 0); ends_of_positions (2, 0)].
Proof. reflexivity. Qed.

Example sample_root :
  dict_get "rootIndex" sample_response = Some (VInt 0) /\
  dict_get "impactCategory" sample_response = Some (VStr "Water use") /\
  dict_get "totalImpact" sample_response = Some (VFloat (-8)).
Proof. repeat split; reflexivity. Qed.

End Samples.



(** * Further properties of the handlers *)

(** ** The connection handle *)

Section Connection.

(** X1. [get_client] never raises and leaves in [client] what it returns.
    A handle, once obtained, is reused by the next call without any call to
    the engine; a failed connection is not remembered, and the next call
    tries to connect again. *)
Theorem get_client_reuses_handle (eng : Engine) (w : World) :
  exists r w1,
    get_client eng w = (Return r, w1) /\ client w1 = r /\
    match r with
    | Some c => get_client eng w1 = (Return (Some c), w1)
    | None =>
        w1 = log_call (Connect 8080) w /\
        get_client eng w1 = (Return None, log_call (Connect 8080) w1)
    end.
Proof.
  unfold get_client.
  destruct (client w) as [c|] eqn:Hc.
  - exists (Some c), w. rewrite Hc. repeat split; assumption.
  - destruct (connect eng) as [msg|u] eqn:Hconn.
    + exists None, (log_call (Connect 8080) w). simpl. rewrite Hc.
      repeat split; assumption.
    + exists (Some (ClientOn 8080)),
             (set_client (ClientOn 8080) (log_call (Connect 8080) w)).
      repeat split.
Qed.

(** X2. [get_status] never raises: it answers connected, with the version,
    exactly when a client handle exists afterwards, and disconnected
    otherwise; the only call it can make is the attempt to connect. *)
Theorem get_status_reports_handle (eng : Engine) (w : World) :
  exists w1,
    (trace w1 = trace w \/ trace w1 = trace w ++ [Connect 8080]) /\
    ((get_status eng w
      = (Return (VDict [("status", VStr "connected");
                        ("version", VStr "2.6.0")]), w1) /\
      client w1 <> None) \/
     (get_status eng w
      = (Return (VDict [("status", VStr "disconnected")]), w1) /\
      client w1 = None)).
Proof.
  unfold get_status, bind, get_client.
  destruct (client w) as [c|] eqn:Hc.
  - exists w. split; [left; reflexivity|]. left. split; [reflexivity|].
    rewrite Hc. discriminate.
  - destruct (connect eng) as [msg|u].
    + exists (log_call (Connect 8080) w). split; [right; reflexivity|].
      right. split; [reflexivity|exact Hc].
    + exists (set_client (ClientOn 8080) (log_call (Connect 8080) w)).
      split; [right; reflexivity|]. left. split; [reflexivity|discriminate].
Qed.

End Connection.


(** ** Descriptor and category listings *)

Section Listings.

Lemma type_map_names (model_type : string) :
  (In model_type model_type_names -> type_map model_type <> None) /\
  (~ In model_type model_type_names -> type_map model_type = None).
Proof.
  unfold type_map, model_type_names. split.
  - intros [<-|[<-|[<-|[<-|[<-|[]]]]]]; discriminate.
  - intros Hnot.
    repeat match goal with
           | |- context [String.eqb model_type ?n] =>
               destruct (String.eqb_spec model_type n) as [->|_];
               [exfalso; apply Hnot; simpl; tauto|]
           end.
    reflexivity.
Qed.

(** X3. With a client handle, [get_descriptors] answers a model type other
    than the five it knows with the empty list and without a call to the
    engine; for a known type it lists the engine's descriptors, converted
    one by one in the engine's order, and an exception of the engine
    becomes HTTP 500 with the exception's message. *)
Theorem get_descriptors_connected (eng : Engine) (model_type : string)
        (w : World) (cl : Client) (w1 : World) :
  get_client eng w = (Return (Some cl), w1) ->
  (~ In model_type model_type_names ->
   get_descriptors eng model_type w = (Return (VList []), w1)) /\
  (In model_type model_type_names ->
   exists t,
     type_map model_type = Some t /\
     match get_descriptors_of eng t with
     | inr descriptors =>
         get_descriptors eng model_type w
         = (Return (VList (map (to_dict eng) descriptors)),
            log_call (GetDescriptors t) w1)
     | inl msg =>
         get_descriptors eng model_type w
         = (Raise (HTTPException 500 msg), log_call (GetDescriptors t) w1)
     end).
Proof.
  intros Hcl. destruct (type_map_names model_type) as [Hknown Hunknown].
  assert (Hrun : get_descriptors eng model_type w
                 = match type_map model_type with
                   | None => (Return (VList []), w1)
                   | Some t =>
                       match get_descriptors_of eng t with
                       | inr descriptors =>
                           (Return (VList (map (to_dict eng) descriptors)),
                            log_call (GetDescriptors t) w1)
                       | inl msg =>
                           (Raise (HTTPException 500 msg),
                            log_call (GetDescriptors t) w1)
                       end
                   end).
  { unfold get_descriptors, bind at 1. rewrite Hcl.
    destruct (type_map model_type) as [t|]; [|reflexivity].
    unfold try_500, bind, ipc, ret.
    destruct (get_descriptors_of eng t); reflexivity. }
  rewrite Hrun. split.
  - intros Hnot. rewrite (Hunknown Hnot). reflexivity.
  - intros Hin. specialize (Hknown Hin).
    destruct (type_map model_type) as [t|]; [|congruence].
    exists t. split; [reflexivity|].
    destruct (get_descriptors_of eng t); reflexivity.
Qed.

Lemma get_descriptors_connected_witness :
  (~ In "ImpactMethod" model_type_names ->
   get_descriptors sample_engine "ImpactMethod" connected0
   = (Return (VList []), connected0)) /\
  (In "ImpactMethod" model_type_names ->
   exists t,
     type_map "ImpactMethod" = Some t /\
     match get_descriptors_of sample_engine t with
     | inr descriptors =>
         get_descriptors sample_engine "ImpactMethod" connected0
         = (Return (VList (map (to_dict sample_engine) descriptors)),
            log_call (GetDescriptors t) connected0)
     | inl msg =>
         get_descriptors sample_engine "ImpactMethod" connected0
         = (Raise (HTTPException 500 msg),
            log_call (GetDescriptors t) connected0)
     end).
Proof.
  exact (get_descriptors_connected sample_engine "ImpactMethod" connected0
           (ClientOn 8080) connected0 eq_refl).
Defined.

Lemma bind_returned {A B} (c : M A) (k : A -> M B) w a w1 :
  c w = (Return a, w1) -> bind c k w = k a w1.
Proof. intros H. unfold bind. rewrite H. reflexivity. Qed.

Lemma bind_raised {A B} (c : M A) (k : A -> M B) w e w1 :
  c w = (Raise e, w1) -> bind c k w = (Raise e, w1).
Proof. intros H. unfold bind. rewrite H. reflexivity. Qed.

Lemma bind_out_of_fuel {A B} (c : M A) (k : A -> M B) w w1 :
  c w = (OutOfFuel, w1) -> bind c k w = (OutOfFuel, w1).
Proof. intros H. unfold bind. rewrite H. reflexivity. Qed.

Lemma ipc_answered {A} (c : IpcCall) (a : A) w :
  ipc c (inr a) w = (Return a, log_call c w).
Proof. reflexivity. Qed.

Lemma ipc_raised {A} (c : IpcCall) (msg : string) w :
  @ipc A c (inl msg) w = (Raise (Exception msg), log_call c w).
Proof. reflexivity. Qed.

(** The lookup of a reference unit is one call, and never raises. *)
Lemma fetch_ref_unit_run (eng : Engine) (uid : option string) (w : World) :
  fetch_ref_unit eng uid w
  = (Return (ref_unit_answer (get_impact_category eng uid)),
     log_call (GetEntity TImpactCategory uid) w).
Proof.
  unfold fetch_ref_unit, try_pass, bind, ipc, ret, ref_unit_answer.
  destruct (get_impact_category eng uid) as [msg|[c|]]; reflexivity.
Qed.


(** The dict of one category in the listing of a method. *)
Lemma method_categories_loop (eng : Engine) :
  forall cats categories w,
    for_each cats categories
      (fun categories cat_ref =>
         ref_unit <- fetch_ref_unit eng (ref_id cat_ref) ;;
         ret (categories ++
              [VDict [("@id", Py.of_opt_str (ref_id cat_ref));
                      ("name", Py.of_opt_str (ref_name cat_ref));
                      ("refUnit", VStr ref_unit)]])) w
    = (Return
         (categories ++
          map (fun cat_ref =>
                 VDict [("@id", Py.of_opt_str (ref_id cat_ref));
                        ("name", Py.of_opt_str (ref_name cat_ref));
                        ("refUnit",
                         VStr (ref_unit_answer
                                 (get_impact_category eng (ref_id cat_ref))))])
              cats),
       extend_trace w
         (map (fun cat_ref => GetEntity TImpactCategory (ref_id cat_ref)) cats)).
Proof.
  induction cats as [|c cats IH]; intros categories w; simpl.
  - rewrite app_nil_r, extend_trace_nil. reflexivity.
  - unfold bind at 1. unfold bind at 1. rewrite fetch_ref_unit_run.
    unfold ret at 1. rewrite IH, log_call_extend, extend_trace_app.
    rewrite <- app_assoc. reflexivity.
Qed.

(** X5. With a client handle, [get_method_categories] turns an exception
    of the method lookup into HTTP 500 with its message and answers a
    missing method with the empty list.  Once the method is found the
    listing cannot fail: it has one entry per category of the method, in
    the method's order, with the category's id and name, and with the empty
    string as the reference unit wherever the lookup of the unit fails; the
    engine is asked once per category. *)
Theorem method_categories_listing (eng : Engine) (method_id : string)
        (w : World) (cl : Client) (w1 : World)
        (answer : Raises (option ImpactMethod)) :
  get_client eng w = (Return (Some cl), w1) ->
  get_impact_method eng method_id = answer ->
  match answer with
  | inl msg =>
      get_method_categories eng method_id w
      = (Raise (HTTPException 500 msg),
         log_call (GetEntity TImpactMethod (Some method_id)) w1)
  | inr None =>
      get_method_categories eng method_id w
      = (Return (VList []),
         log_call (GetEntity TImpactMethod (Some method_id)) w1)
  | inr (Some method) =>
      get_method_categories eng method_id w
      = (Return
           (VList
              (map (fun cat_ref =>
                      VDict [("@id", Py.of_opt_str (ref_id cat_ref));
                             ("name", Py.of_opt_str (ref_name cat_ref));
                             ("refUnit",
                              VStr (ref_unit_answer
                                      (get_impact_category eng
                                         (ref_id cat_ref))))])
                   (default [] (impact_categories method)))),
         extend_trace w1
           (GetEntity TImpactMethod (Some method_id)
            :: map (fun cat_ref => GetEntity TImpactCategory (ref_id cat_ref))
                   (default [] (impact_categories method))))
  end.
Proof.
  intros Hcl Hmethod.
  unfold get_method_categories. rewrite (bind_returned _ _ _ _ _ Hcl).
  unfold try_500. rewrite Hmethod.
  destruct answer as [msg|[method|]].
  - rewrite (bind_raised _ _ _ _ _ (ipc_raised _ msg w1)). reflexivity.
  - rewrite (bind_returned _ _ _ _ _ (ipc_answered _ (Some method) w1)).
    rewrite (bind_returned _ _ _ _ _ (method_categories_loop eng _ [] _)).
    unfold ret. rewrite log_call_extend, extend_trace_app. reflexivity.
  - rewrite (bind_returned _ _ _ _ _ (ipc_answered _ None w1)). reflexivity.
Qed.

Lemma method_categories_listing_witness :
  get_method_categories no_units_engine "m-1" connected0
  = (Return
       (VList
          (map (fun cat_ref =>
                  VDict [("@id", Py.of_opt_str (ref_id cat_ref));
                         ("name", Py.of_opt_str (ref_name cat_ref));
                         ("refUnit",
                          VStr (ref_unit_answer
                                  (get_impact_category no_units_engine
                                     (ref_id cat_ref))))])
               (default [] (Some sample_cats)))),
     extend_trace connected0
       (GetEntity TImpactMethod (Some "m-1")
        :: map (fun cat_ref => GetEntity TImpactCategory (ref_id cat_ref))
               (default [] (Some sample_cats)))).
Proof.
  exact (method_categories_listing no_units_engine "m-1" connected0
           (ClientOn 8080) connected0
           (inr (Some {| impact_categories := Some sample_cats |}))
           eq_refl eq_refl).
Defined.

End Listings.


(** ** Errors and disposal in the Sankey endpoint *)

Section SankeyRuns.

Lemma disposes_in_app (t u : list IpcCall) :
  disposes_in (t ++ u) = disposes_in t + disposes_in u.
Proof. unfold disposes_in. rewrite List.filter_app, length_app. reflexivity. Qed.

Lemma bind_assoc {A B C} (c : M A) (f : A -> M B) (k : B -> M C) w :
  bind (bind c f) k w = bind c (fun a => bind (f a) k) w.
Proof. unfold bind. destruct (c w) as [[a|e|] w1]; reflexivity. Qed.

Ltac run_step :=
  match goal with
  | |- context [bind (ipc ?c ?r) ?k ?w] =>
      let a := fresh "a" in
      let msg := fresh "msg" in
      destruct r as [msg|a];
      [ rewrite (bind_raised _ k w _ _ (ipc_raised c msg w))
      | rewrite (bind_returned _ k w _ _ (ipc_answered c a w)) ];
      cbn beta
  | |- context [bind (fetch_ref_unit ?e ?u) ?k ?w] =>
      rewrite (bind_returned _ k w _ _ (fetch_ref_unit_run e u w)); cbn beta
  | |- context [bind (ret ?a) ?k ?w] =>
      rewrite (bind_returned (ret a) k w a w eq_refl); cbn beta iota
  | |- context [lift (shape_response ?t ?ru ?tg ?g ?ns) ?w] =>
      let Heq := fresh "Heq" in
      destruct (shape_response_value t ru tg g ns) as (? & ? & _ & _ & Heq);
      rewrite Heq; unfold lift
  end.

Ltac run_leaf :=
  unfold ret, raise;
  rewrite ?log_call_extend, ?extend_trace_app;
  do 2 eexists; (split; [reflexivity|]); cbn.

Ltac run_graph :=
  repeat run_step; try (run_leaf; eauto);
  match goal with
  | |- context [match ?a with Some g => _ | None => _ end] =>
      destruct a as [g|]; [destruct (nodes g) as [[|? ?]|]|]
  end;
  repeat run_step; run_leaf; eauto.

(** The calls and the outcome of [get_sankey] from the ready result on:
    a normal return disposes the handle exactly once, as its last call; a
    failure is an exception of the engine, and the handle is disposed only
    when the failure is that of the disposal. *)
Lemma sankey_of_result_run eng result cid max_nodes min_share w :
  exists o t,
    sankey_of_result eng result cid max_nodes min_share w
    = (o, extend_trace w t) /\
    match o with
    | Return _ => disposes_in t = 1 /\ last t = Some Dispose
    | Raise e =>
        (exists msg, e = Exception msg) /\
        (disposes_in t = 0 \/ (disposes_in t = 1 /\ last t = Some Dispose))
    | OutOfFuel => False
    end.
Proof.
  unfold sankey_of_result, dispose_result, _resolve_impact_category,
         _get_ref_unit.
  run_step; [run_leaf; eauto|].
  destruct a as [|cat cats].
  { run_step; run_leaf; eauto. }
  destruct (match cid with
            | Some ((String _ _) as wanted) => find_by_id (cat :: cats) wanted
            | _ => None
            end) as [target|].
  - run_step. run_graph.
  - rewrite bind_assoc. run_step; [run_leaf; eauto|]. run_step.
    destruct (auto_select a (cat :: cats)) as [target|].
    + run_graph.
    + run_step; run_leaf; eauto.
Qed.

(** The polling loop disposes nothing; it returns only after a poll and
    fails only with an exception of the engine, HTTP 500 or HTTP 504. *)
Lemma wait_loop_run result max_wait :
  forall fuel k waited w,
  exists o t,
    wait_loop fuel result max_wait k waited w = (o, extend_trace w t) /\
    disposes_in t = 0 /\
    match o with
    | Return _ => 0 < polls_in t
    | Raise e =>
        (exists msg, e = Exception msg) \/
        (exists detail, e = HTTPException 500 detail) \/
        e = HTTPException 504 "Calculation timed out"
    | OutOfFuel => True
    end.
Proof.
  induction fuel as [|fuel IH]; intros k waited w.
  - exists OutOfFuel, []. unfold wait_loop, out_of_fuel.
    rewrite extend_trace_nil. repeat split.
  - rewrite wait_loop_S.
    destruct (PrimFloat.ltb waited max_wait).
    + run_step; [run_leaf; repeat split; eauto|].
      destruct (Py.truthy_bool (is_ready a)).
      { run_leaf. repeat split. unfold polls_in. simpl. lia. }
      assert (Hcont :
        exists o t,
          (_ <- sleep 0.5 ;;
           wait_loop fuel result max_wait (S k) (PrimFloat.add waited 0.5))
            (log_call GetState w) = (o, extend_trace w t) /\
          disposes_in t = 0 /\
          match o with
          | Return _ => 0 < polls_in t
          | Raise e =>
              (exists msg, e = Exception msg) \/
              (exists detail, e = HTTPException 500 detail) \/
              e = HTTPException 504 "Calculation timed out"
          | OutOfFuel => True
          end).
      { rewrite (bind_returned _ _ _ tt _ (eq_refl : sleep 0.5 _ = _)).
        destruct (IH (S k) (PrimFloat.add waited 0.5)
                     (log_call (Sleep 0.5) (log_call GetState w)))
          as (o & t & Heq & Hd & Ho).
        exists o, ([GetState; Sleep 0.5] ++ t).
        rewrite Heq, !log_call_extend, !extend_trace_app.
        split; [reflexivity|]. rewrite disposes_in_app, Hd.
        split; [reflexivity|].
        destruct o; auto. rewrite polls_in_app. unfold polls_in at 1.
        simpl. lia. }
      destruct (error a) as [[|c e]|]; try exact Hcont.
      run_leaf. repeat split. eauto.
    + exists (Raise (HTTPException 504 "Calculation timed out")), [].
      unfold raise. rewrite extend_trace_nil. repeat split. auto.
Qed.

(** The whole run of [get_sankey] once a client handle exists. *)
Lemma get_sankey_run eng fuel system_id mid cid max_nodes min_share w cl w1 :
  get_client eng w = (Return (Some cl), w1) ->
  exists o t,
    get_sankey eng fuel system_id mid cid max_nodes min_share w
    = (o, extend_trace w1 t) /\
    match o with
    | Return resp =>
        (polls_in t = 0 /\ disposes_in t = 0 /\ resp = _empty_result) \/
        (0 < polls_in t /\ disposes_in t = 1 /\ last t = Some Dispose)
    | Raise e =>
        (exists status detail,
           e = HTTPException status detail /\
           In status [404; 500; 504]%Z) /\
        (disposes_in t = 0 \/
         (disposes_in t = 1 /\ last t = Some Dispose /\
          exists msg, e = HTTPException 500 msg))
    | OutOfFuel => fuel <= 240
    end.
Proof.
  intros Hcl. unfold get_sankey. rewrite (bind_returned _ _ _ _ _ Hcl).
  unfold try_500.
  run_step; [run_leaf; split; [do 2 eexists; split; [reflexivity|tauto]|tauto]|].
  destruct a as [system|];
    [|run_leaf; split; [do 2 eexists; split; [reflexivity|tauto]|tauto]].
  run_step; [run_leaf; split; [do 2 eexists; split; [reflexivity|tauto]|tauto]|].
  destruct a as [|first methods]; [run_leaf; tauto|].
  run_step; [run_leaf; split; [do 2 eexists; split; [reflexivity|tauto]|tauto]|].
  destruct (Py.truthy_str (result_error a)); [run_leaf; tauto|].
  rename a into result.
  set (setup := {| setup_target := to_ref system;
                   setup_impact_method :=
                     resolve_method (first :: methods) first mid;
                   setup_amount := Py.float_or (target_amount system) 1 |}).
  rewrite !log_call_extend, !extend_trace_app.
  set (pre := ([GetEntity TProductSystem (Some system_id)] ++
               [GetDescriptors TImpactMethod]) ++ [Calculate setup]).
  assert (Hpre : disposes_in pre = 0 /\ polls_in pre = 0) by (split; reflexivity).
  destruct Hpre as [Hpre_d Hpre_p].
  unfold _wait_for_result.
  destruct (wait_loop_run result 120 fuel 0 0 (extend_trace w1 pre))
    as (o1 & t1 & Heq1 & Hd1 & Ho1).
  destruct o1 as [u|e|].
  - rewrite (bind_returned _ _ _ _ _ Heq1).
    destruct (sankey_of_result_run eng result cid max_nodes min_share
                (extend_trace (extend_trace w1 pre) t1))
      as (o2 & t2 & Heq2 & Ho2).
    rewrite Heq2, !extend_trace_app.
    destruct o2 as [resp|e|]; [| |destruct Ho2].
    + exists (Return resp), (pre ++ t1 ++ t2). split; [reflexivity|].
      right. destruct Ho2 as [Hd2 Hlast].
      rewrite !polls_in_app, !disposes_in_app, Hpre_d, Hd1, Hd2.
      repeat split; [lia|].
      rewrite app_assoc, last_app, Hlast. reflexivity.
    + exists (Raise (to_http_500 e)), (pre ++ t1 ++ t2).
      split; [reflexivity|].
      destruct Ho2 as [[msg ->] Hd2]. cbn [to_http_500]. split.
      * exists 500%Z, msg. split; [reflexivity|simpl; tauto].
      * rewrite !disposes_in_app, Hpre_d, Hd1.
        destruct Hd2 as [Hd2|[Hd2 Hlast]]; rewrite Hd2; [left; reflexivity|].
        right. repeat split; [|eauto].
        rewrite app_assoc, last_app, Hlast. reflexivity.
  - rewrite (bind_raised _ _ _ _ _ Heq1), extend_trace_app.
    exists (Raise (to_http_500 e)), (pre ++ t1). split; [reflexivity|].
    rewrite disposes_in_app, Hpre_d, Hd1. split; [|left; reflexivity].
    destruct Ho1 as [[msg ->]|[[detail ->]| ->]]; cbn [to_http_500];
      do 2 eexists; (split; [reflexivity|simpl; tauto]).
  - rewrite (bind_out_of_fuel _ _ _ _ Heq1), extend_trace_app.
    exists OutOfFuel, (pre ++ t1). split; [reflexivity|].
    destruct (le_lt_dec fuel 240) as [Hle|Hlt]; [exact Hle|exfalso].
    destruct (wait_loop_terminates result 240 0 fuel (extend_trace w1 pre))
      as (o & t & Heq & Ho & _); [lia|lia|].
    change (waited_after 0) with 0%float in Heq.
    rewrite Heq1 in Heq. injection Heq as <- _. apply Ho. reflexivity.
Qed.

Lemma get_client_returns (eng : Engine) (w : World) :
  exists r w1, get_client eng w = (Return r, w1).
Proof.
  unfold get_client. destruct (client w); [eauto|].
  destruct (connect eng); eauto.
Qed.

(** X6. With fuel for the polling loop, [get_sankey] either returns a
    response or raises an HTTP error whose status is 503, 404, 500 or 504:
    no other exception leaves the endpoint, whatever the engine answers or
    raises. *)
Theorem sankey_errors_are_http eng fuel system_id mid cid max_nodes
        min_share w :
  240 < fuel ->
  match fst (get_sankey eng fuel system_id mid cid max_nodes min_share w) with
  | Return _ => True
  | Raise e =>
      exists status detail,
        e = HTTPException status detail /\ In status sankey_error_statuses
  | OutOfFuel => False
  end.
Proof.
  intros Hfuel. destruct (get_client_returns eng w) as ([cl|] & w1 & Hcl).
  - destruct (get_sankey_run eng fuel system_id mid cid max_nodes min_share
                w cl w1 Hcl) as (o & t & -> & Ho).
    destruct o as [resp|e|]; cbn [fst]; [exact I| |lia].
    destruct Ho as [(status & detail & -> & Hin) _].
    exists status, detail. split; [reflexivity|]. right. exact Hin.
  - unfold get_sankey. rewrite (bind_returned _ _ _ _ _ Hcl).
    exists 503%Z, "openLCA not connected". split; [reflexivity|left; reflexivity].
Qed.

Lemma sankey_errors_are_http_witness :
  match fst (get_sankey polling_error_engine 241 "s-1" None None 25 0 world0)
  with
  | Return _ => True
  | Raise e =>
      exists status detail,
        e = HTTPException status detail /\ In status sankey_error_statuses
  | OutOfFuel => False
  end.
Proof.
  apply (sankey_errors_are_http polling_error_engine 241 "s-1" None None 25 0
           world0).
  lia.
Defined.

(** X7. With a client handle, a product system the engine does not know
    makes [get_sankey] raise HTTP 404 [Product system not found], and an
    exception of the engine during that lookup HTTP 500 with its message;
    in both cases the lookup is the only call made. *)
Theorem sankey_unknown_system eng fuel system_id mid cid max_nodes min_share
        w cl w1 :
  get_client eng w = (Return (Some cl), w1) ->
  (get_product_system eng system_id = inr None ->
   get_sankey eng fuel system_id mid cid max_nodes min_share w
   = (Raise (HTTPException 404 "Product system not found"),
      log_call (GetEntity TProductSystem (Some system_id)) w1)) /\
  (forall msg,
     get_product_system eng system_id = inl msg ->
     get_sankey eng fuel system_id mid cid max_nodes min_share w
     = (Raise (HTTPException 500 msg),
        log_call (GetEntity TProductSystem (Some system_id)) w1)).
Proof.
  intros Hcl. unfold get_sankey. rewrite (bind_returned _ _ _ _ _ Hcl).
  unfold try_500. split.
  - intros ->. rewrite (bind_returned _ _ _ _ _ (ipc_answered _ None w1)).
    reflexivity.
  - intros msg ->. rewrite (bind_raised _ _ _ _ _ (ipc_raised _ msg w1)).
    reflexivity.
Qed.

Lemma sankey_unknown_system_witness :
  (get_product_system sample_engine "s-404" = inr None ->
   get_sankey sample_engine 241 "s-404" None None 25 0 connected0
   = (Raise (HTTPException 404 "Product system not found"),
      log_call (GetEntity TProductSystem (Some "s-404")) connected0)) /\
  (forall msg,
     get_product_system sample_engine "s-404" = inl msg ->
     get_sankey sample_engine 241 "s-404" None None 25 0 connected0
     = (Raise (HTTPException 500 msg),
        log_call (GetEntity TProductSystem (Some "s-404")) connected0)).
Proof.
  exact (sankey_unknown_system sample_engine 241 "s-404" None None 25 0
           connected0 (ClientOn 8080) connected0 eq_refl).
Defined.

(** X8. When the submitted calculation is neither ready nor in error at any
    of the 240 polls, [get_sankey] raises HTTP 504 [Calculation timed out]:
    the timeout of the polling passes the endpoint's handler unchanged, and
    the calls made are the submission and the 240 polls with their sleeps,
    the handle being left undisposed. *)
Theorem sankey_times_out eng fuel system_id mid cid max_nodes min_share
        w cl w1 system first methods result :
  get_client eng w = (Return (Some cl), w1) ->
  get_product_system eng system_id = inr (Some system) ->
  get_descriptors_of eng TImpactMethod = inr (first :: methods) ->
  calculate eng
    {| setup_target := to_ref system;
       setup_impact_method := resolve_method (first :: methods) first mid;
       setup_amount := Py.float_or (target_amount system) 1 |} = inr result ->
  Py.truthy_str (result_error result) = false ->
  240 < fuel ->
  (forall i, i < 240 -> inconclusive result i) ->
  get_sankey eng fuel system_id mid cid max_nodes min_share w
  = (Raise (HTTPException 504 "Calculation timed out"),
     extend_trace w1
       (submission_calls system_id
          {| setup_target := to_ref system;
             setup_impact_method := resolve_method (first :: methods) first mid;
             setup_amount := Py.float_or (target_amount system) 1 |}
        ++ poll_trace 240)).
Proof.
  intros Hcl Hsys Hmeth Hcalc Herr Hfuel Hinc.
  rewrite (get_sankey_submits eng fuel system_id mid cid max_nodes min_share
             w cl w1 system first methods Hcl Hsys Hmeth).
  cbv zeta. rewrite Hcalc, Herr. unfold try_500.
  rewrite (bind_raised _ _ _ _ _ (wait_times_out result fuel _ Hfuel Hinc)).
  rewrite extend_trace_app. reflexivity.
Qed.

Lemma sankey_times_out_witness :
  get_sankey never_ready_engine 241 "s-1" None None 25 0 connected0
  = (Raise (HTTPException 504 "Calculation timed out"),
     extend_trace connected0
       (submission_calls "s-1"
          {| setup_target := to_ref system_demo;
             setup_impact_method :=
               resolve_method (method_traci :: [method_recipe]) method_traci
                              None;
             setup_amount := Py.float_or (target_amount system_demo) 1 |}
        ++ poll_trace 240)).
Proof.
  apply (sankey_times_out never_ready_engine 241 "s-1" None None 25 0
           connected0 (ClientOn 8080) connected0 system_demo method_traci
           [method_recipe]
           (result_with None (fun _ => inr pending) (Some 1%float)));
    try reflexivity.
  - lia.
  - intros i Hi. exists pending. repeat split.
Defined.

(** X9. With a client handle, every normal return of [get_sankey] leaves
    the result handle in order: when the result was polled, the handle is
    disposed exactly once and the disposal is the last call made; when
    nothing was polled, nothing is disposed and the response is the empty
    result. *)
Theorem sankey_disposes_once eng fuel system_id mid cid max_nodes min_share
        w cl w1 resp w' :
  get_client eng w = (Return (Some cl), w1) ->
  get_sankey eng fuel system_id mid cid max_nodes min_share w
  = (Return resp, w') ->
  exists t,
    w' = extend_trace w1 t /\
    ((polls_in t = 0 /\ disposes_in t = 0 /\ resp = _empty_result) \/
     (0 < polls_in t /\ disposes_in t = 1 /\ last t = Some Dispose)).
Proof.
  intros Hcl Hrun.
  destruct (get_sankey_run eng fuel system_id mid cid max_nodes min_share
              w cl w1 Hcl) as (o & t & Heq & Ho).
  rewrite Hrun in Heq. injection Heq as <- ->.
  exists t. split; [reflexivity|exact Ho].
Qed.

Lemma sankey_disposes_once_witness :
  exists t,
    snd (get_sankey sample_engine 241 "s-1" None None 25 0 connected0)
    = extend_trace connected0 t /\
    ((polls_in t = 0 /\ disposes_in t = 0 /\
      sample_response = _empty_result) \/
     (0 < polls_in t /\ disposes_in t = 1 /\ last t = Some Dispose)).
Proof.
  apply (sankey_disposes_once sample_engine 241 "s-1" None None 25 0
           connected0 (ClientOn 8080) connected0 sample_response).
  - reflexivity.
  - vm_compute. reflexivity.
Defined.

(** X10. With a client handle, when [get_sankey] raises, the result handle
    has not been disposed, unless the disposal is the last call made and
    the error is HTTP 500: a failure of the engine between the submission
    and the disposal leaves the handle undisposed. *)
Theorem sankey_failure_keeps_handle eng fuel system_id mid cid max_nodes
        min_share w cl w1 e w' :
  get_client eng w = (Return (Some cl), w1) ->
  get_sankey eng fuel system_id mid cid max_nodes min_share w
  = (Raise e, w') ->
  exists t,
    w' = extend_trace w1 t /\
    (disposes_in t = 0 \/
     (disposes_in t = 1 /\ last t = Some Dispose /\
      exists msg, e = HTTPException 500 msg)).
Proof.
  intros Hcl Hrun.
  destruct (get_sankey_run eng fuel system_id mid cid max_nodes min_share
              w cl w1 Hcl) as (o & t & Heq & Ho).
  rewrite Hrun in Heq. injection Heq as <- ->.
  exists t. split; [reflexivity|]. destruct Ho as [_ Ho]. exact Ho.
Qed.

Lemma sankey_failure_keeps_handle_witness :
  exists t,
    snd (get_sankey polling_error_engine 241 "s-1" None None 25 0 connected0)
    = extend_trace connected0 t /\
    (disposes_in t = 0 \/
     (disposes_in t = 1 /\ last t = Some Dispose /\
      exists msg,
        HTTPException 500 "Calculation error: Singular matrix"
        = HTTPException 500 msg)).
Proof.
  apply (sankey_failure_keeps_handle polling_error_engine 241 "s-1" None None
           25 0 connected0 (ClientOn 8080) connected0
           (HTTPException 500 "Calculation error: Singular matrix")).
  - reflexivity.
  - vm_compute. reflexivity.
Defined.

(** X16. When the engine raises while the state of the submitted
    calculation is polled, after polls that were neither ready nor in
    error, [get_sankey] raises HTTP 500 with the exception's message: the
    polling stops at that poll and the handle is left undisposed. *)
Theorem sankey_poll_exception eng fuel system_id mid cid max_nodes min_share
        w cl w1 system first methods result k msg :
  get_client eng w = (Return (Some cl), w1) ->
  get_product_system eng system_id = inr (Some system) ->
  get_descriptors_of eng TImpactMethod = inr (first :: methods) ->
  calculate eng
    {| setup_target := to_ref system;
       setup_impact_method := resolve_method (first :: methods) first mid;
       setup_amount := Py.float_or (target_amount system) 1 |} = inr result ->
  Py.truthy_str (result_error result) = false ->
  240 < fuel -> k < 240 ->
  (forall i, i < k -> inconclusive result i) ->
  get_state result k = inl msg ->
  get_sankey eng fuel system_id mid cid max_nodes min_share w
  = (Raise (HTTPException 500 msg),
     extend_trace w1
       (submission_calls system_id
          {| setup_target := to_ref system;
             setup_impact_method := resolve_method (first :: methods) first mid;
             setup_amount := Py.float_or (target_amount system) 1 |}
        ++ poll_trace k ++ [GetState])).
Proof.
  intros Hcl Hsys Hmeth Hcalc Herr Hfuel Hk Hinc Hstate.
  rewrite (get_sankey_submits eng fuel system_id mid cid max_nodes min_share
             w cl w1 system first methods Hcl Hsys Hmeth).
  cbv zeta. rewrite Hcalc, Herr. unfold try_500.
  set (w3 := extend_trace w1 _).
  assert (Hwait : _wait_for_result fuel result 120 w3
                  = (Raise (Exception msg),
                     extend_trace w3 (poll_trace k ++ [GetState]))).
  { destruct (wait_loop_reach result fuel k w3 Hk Hfuel Hinc) as (fuel' & ->).
    rewrite wait_loop_S, (waited_lt k Hk), Hstate.
    rewrite (bind_raised _ _ _ _ _ (ipc_raised _ msg _)).
    rewrite log_call_extend, extend_trace_app. reflexivity. }
  rewrite (bind_raised _ _ _ _ _ Hwait). unfold w3.
  rewrite extend_trace_app. reflexivity.
Qed.

Lemma sankey_poll_exception_witness :
  get_sankey lost_engine 241 "s-1" None None 25 0 connected0
  = (Raise (HTTPException 500 "Connection reset"),
     extend_trace connected0
       (submission_calls "s-1"
          {| setup_target := to_ref system_demo;
             setup_impact_method :=
               resolve_method (method_traci :: [method_recipe]) method_traci
                              None;
             setup_amount := Py.float_or (target_amount system_demo) 1 |}
        ++ poll_trace 1 ++ [GetState])).
Proof.
  apply (sankey_poll_exception lost_engine 241 "s-1" None None 25 0
           connected0 (ClientOn 8080) connected0 system_demo method_traci
           [method_recipe]
           (result_with None
              (fun k => if Nat.ltb k 1 then inr pending
                        else inl "Connection reset")
              (Some 1%float)) 1 "Connection reset");
    try reflexivity.
  - lia.
  - lia.
  - intros i Hi. exists pending. destruct i as [|i]; [repeat split|lia].
Defined.

End SankeyRuns.


(** ** More on the shape of the response *)

Section ResponseShape.

Lemma binary_round_aux_not_neg (m e : Z) (l : location) :
  SFltb (binary_round_aux prec emax false m e l) (S754_zero false) = false.
Proof.
  unfold binary_round_aux.
  destruct (shr_fexp prec emax m e l) as [mrs' e'].
  destruct (shr_fexp prec emax _ e' loc_Exact) as [mrs'' e''].
  destruct (shr_m mrs''); try reflexivity.
  destruct (Z.leb e'' (emax - prec)); reflexivity.
Qed.

(** A hundred times an absolute value is never negative. *)
Lemma abs_times_100_not_neg (q : float) :
  PrimFloat.ltb (PrimFloat.mul (PrimFloat.abs q) 100) 0 = false.
Proof.
  rewrite ltb_spec, mul_spec, abs_spec, Prim2SF_zero.
  set (h := Prim2SF 100). vm_compute in h. subst h.
  unfold SF64mul, SFmul.
  destruct (Prim2SF q) as [[]|[]| |[] m e]; simpl SFabs; cbv iota;
    try reflexivity; apply binary_round_aux_not_neg.
Qed.

Lemma share_pct_not_neg (x t : float) :
  PrimFloat.ltb (share_pct x t) 0 = false.
Proof. unfold share_pct. apply abs_times_100_not_neg. Qed.

(** X11. In every normal Sankey response no number is negative that the
    frontend draws: the directPct and upstreamPct of every node and the
    value of every link are absolute values, so none of them is less than
    zero, whatever the signs of the results, the shares and the total
    impact. *)
Theorem sankey_magnitudes_not_negative eng fuel system_id mid cid max_nodes
        min_share w resp w' :
  get_sankey eng fuel system_id mid cid max_nodes min_share w
  = (Return resp, w') ->
  Forall (fun entry => nonneg_field "directPct" entry /\
                       nonneg_field "upstreamPct" entry)
         (list_items (dict_get "nodes" resp)) /\
  Forall (nonneg_field "value") (list_items (dict_get "links" resp)).
Proof.
  intros H.
  destruct (get_sankey_returns _ _ _ _ _ _ _ _ _ _ H)
    as [->|(t & ru & target & g & node & ns & _ & Hshape)];
    [split; constructor|].
  destruct (shape_response_value t ru target g (node :: ns))
    as (out & idx & Hall & _ & Heq).
  rewrite Heq in Hshape. injection Hshape as <-.
  change (list_items (dict_get "nodes" _)) with out.
  change (list_items (dict_get "links" _))
    with (omap (link_entry idx (abs_total_of t)) (default [] (edges g))).
  split; apply List.Forall_forall.
  - intros entry Hin.
    destruct (Forall2_In_r _ _ _ _ Hall Hin) as (nd & _ & Hentry).
    destruct (node_entry_value g t nd) as (n & f & pid & Hval).
    rewrite Hval in Hentry. injection Hentry as <-.
    split; eexists; (split; [reflexivity|apply share_pct_not_neg]).
  - intros link Hin.
    apply list_elem_of_In, list_elem_of_omap in Hin.
    destruct Hin as (e & _ & Hlink).
    destruct (link_entry_value idx t e link Hlink)
      as (src & tgt & _ & _ & _ & ->).
    eexists. split; [reflexivity|apply abs_not_neg].
Qed.

Lemma sankey_magnitudes_not_negative_witness :
  Forall (fun entry => nonneg_field "directPct" entry /\
                       nonneg_field "upstreamPct" entry)
         (list_items (dict_get "nodes" sample_response)) /\
  Forall (nonneg_field "value") (list_items (dict_get "links" sample_response)).
Proof.
  apply (sankey_magnitudes_not_negative sample_engine 241 "s-1" None None 25 0
           world0 sample_response
           (snd (get_sankey sample_engine 241 "s-1" None None 25 0 world0))).
  vm_compute. reflexivity.
Defined.

Lemma impact_unit_not_empty (ru : string) (target : Ref) :
  impact_unit_of ru target <> "".
Proof.
  unfold impact_unit_of, str_or.
  destruct ru as [|a ru]; [|discriminate].
  destruct (ref_name target) as [[|a n]|]; simpl; discriminate.
Qed.

Lemma node_entry_name (g : SankeyGraph) (a : float) (node : SankeyNode)
      (entry : pyval) :
  node_entry g a node = inr entry -> nonempty_field "name" entry.
Proof.
  unfold node_entry, rbind.
  destruct (pct _ a) as [|p1]; [discriminate|].
  destruct (pct _ a) as [|p2]; [discriminate|].
  intros [= <-]. eexists. split; [reflexivity|].
  unfold str_or.
  destruct (tech_flow node) as [[[p|] f]|]; simpl; try discriminate.
  destruct (ref_name p) as [[|c n]|]; simpl; discriminate.
Qed.

(** X12. The labels of a normal Sankey response that is not the empty
    result are never blank: its impactUnit is a non-empty string (the
    reference unit, else the category's name, else [impact]) and every
    node has a non-empty name ([Unknown] when the provider or its name is
    missing). *)
Theorem sankey_labels_not_blank eng fuel system_id mid cid max_nodes min_share
        w resp w' :
  get_sankey eng fuel system_id mid cid max_nodes min_share w
  = (Return resp, w') ->
  resp = _empty_result \/
  (nonempty_field "impactUnit" resp /\
   Forall (nonempty_field "name") (list_items (dict_get "nodes" resp))).
Proof.
  intros H.
  destruct (get_sankey_returns _ _ _ _ _ _ _ _ _ _ H)
    as [->|(t & ru & target & g & node & ns & _ & Hshape)];
    [left; reflexivity|right].
  destruct (shape_response_value t ru target g (node :: ns))
    as (out & idx & Hall & _ & Heq).
  rewrite Heq in Hshape. injection Hshape as <-. split.
  - eexists. split; [reflexivity|apply impact_unit_not_empty].
  - change (list_items (dict_get "nodes" _)) with out.
    apply List.Forall_forall. intros entry Hin.
    destruct (Forall2_In_r _ _ _ _ Hall Hin) as (nd & _ & Hentry).
    exact (node_entry_name _ _ _ _ Hentry).
Qed.

Lemma sankey_labels_not_blank_witness :
  sample_response = _empty_result \/
  (nonempty_field "impactUnit" sample_response /\
   Forall (nonempty_field "name")
          (list_items (dict_get "nodes" sample_response))).
Proof.
  apply (sankey_labels_not_blank sample_engine 241 "s-1" None None 25 0
           world0 sample_response
           (snd (get_sankey sample_engine 241 "s-1" None None 25 0 world0))).
  vm_compute. reflexivity.
Defined.

Lemma position_of_index (ns : list SankeyNode) (key : option Z) (p : nat) :
  position_of ns key = Some p ->
  exists node, ns !! p = Some node /\ index node = key.
Proof.
  revert p. induction ns as [|n ns IH]; intros p; simpl; [discriminate|].
  destruct (position_of ns key) as [q|].
  - intros [= <-]. exact (IH q eq_refl).
  - destruct (decide (index n = key)) as [Hk|Hk].
    + rewrite bool_decide_eq_true_2 by exact Hk. intros [= <-].
      exists n. split; [reflexivity|exact Hk].
    + rewrite bool_decide_eq_false_2 by exact Hk. discriminate.
Qed.

Lemma position_of_absent (ns : list SankeyNode) (key : option Z) :
  position_of ns key = None -> forall node, In node ns -> index node <> key.
Proof.
  induction ns as [|n ns IH]; simpl; [intros _ ? []|].
  destruct (position_of ns key) as [q|]; [discriminate|].
  destruct (decide (index n = key)) as [Hk|Hk].
  - rewrite bool_decide_eq_true_2 by exact Hk. discriminate.
  - intros _ node [<-|Hin]; [exact Hk|]. apply IH; [reflexivity|exact Hin].
Qed.

Lemma node_entry_root (g : SankeyGraph) (a : float) (node : SankeyNode)
      (entry : pyval) :
  node_entry g a node = inr entry ->
  is_root_flag (bool_decide (index node = root_index g)) entry.
Proof.
  unfold node_entry, rbind.
  destruct (pct _ a) as [|p1]; [discriminate|].
  destruct (pct _ a) as [|p2]; [discriminate|].
  intros [= <-]. reflexivity.
Qed.

(** X13. In every normal Sankey response that is not the empty result,
    rootIndex is a position of the node list.  When some node carries the
    graph's root index, rootIndex is the position of a node flagged
    isRoot; when none does, rootIndex is 0 and no node is flagged. *)
Theorem sankey_root_consistent eng fuel system_id mid cid max_nodes min_share
        w resp w' :
  get_sankey eng fuel system_id mid cid max_nodes min_share w
  = (Return resp, w') ->
  resp = _empty_result \/
  exists r,
    dict_get "rootIndex" resp = Some (VInt (Z.of_nat r)) /\
    r < List.length (list_items (dict_get "nodes" resp)) /\
    ((exists entry,
        list_items (dict_get "nodes" resp) !! r = Some entry /\
        is_root_flag true entry) \/
     (r = 0 /\
      Forall (is_root_flag false) (list_items (dict_get "nodes" resp)))).
Proof.
  intros H.
  destruct (get_sankey_returns _ _ _ _ _ _ _ _ _ _ H)
    as [->|(t & ru & target & g & node & ns & _ & Hshape)];
    [left; reflexivity|right].
  destruct (shape_response_value t ru target g (node :: ns))
    as (out & idx & Hall & Hidx & Heq).
  rewrite Heq in Hshape. injection Hshape as <-.
  change (list_items (dict_get "nodes" _)) with out.
  exists (default 0 (idx !! root_index g)).
  split; [reflexivity|].
  pose proof (Forall2_length _ _ _ Hall) as Hlen.
  rewrite Hidx.
  destruct (position_of (node :: ns) (root_index g)) as [p|] eqn:Hp;
    cbn [default].
  - split; [rewrite <- Hlen; exact (position_of_lt _ _ _ Hp)|]. left.
    destruct (position_of_index _ _ _ Hp) as (nd & Hnd & Hroot).
    destruct (Forall2_lookup_l _ _ _ _ _ Hall Hnd) as (entry & Hentry & Hmk).
    exists entry. split; [exact Hentry|].
    pose proof (node_entry_root _ _ _ _ Hmk) as Hflag.
    rewrite bool_decide_eq_true_2 in Hflag by exact Hroot. exact Hflag.
  - split; [rewrite <- Hlen; simpl; lia|]. right. split; [reflexivity|].
    apply List.Forall_forall. intros entry Hin.
    destruct (Forall2_In_r _ _ _ _ Hall Hin) as (nd & Hnd & Hmk).
    pose proof (node_entry_root _ _ _ _ Hmk) as Hflag.
    rewrite bool_decide_eq_false_2 in Hflag
      by exact (position_of_absent _ _ Hp nd Hnd).
    exact Hflag.
Qed.

Lemma sankey_root_consistent_witness :
  sample_response = _empty_result \/
  exists r,
    dict_get "rootIndex" sample_response = Some (VInt (Z.of_nat r)) /\
    r < List.length (list_items (dict_get "nodes" sample_response)) /\
    ((exists entry,
        list_items (dict_get "nodes" sample_response) !! r = Some entry /\
        is_root_flag true entry) \/
     (r = 0 /\
      Forall (is_root_flag false)
             (list_items (dict_get "nodes" sample_response)))).
Proof.
  apply (sankey_root_consistent sample_engine 241 "s-1" None None 25 0
           world0 sample_response
           (snd (get_sankey sample_engine 241 "s-1" None None 25 0 world0))).
  vm_compute. reflexivity.
Defined.

End ResponseShape.


(** ** More on the automatic selection *)

Section Selection.

Lemma SFltb_below (b c b' : spec_float) :
  SFltb b b' = true -> SFltb b c = false -> SFeqb c c = true ->
  SFltb c b' = true.
Proof.
  unfold SFltb, SFeqb, SFcompare.
  destruct b as [sb|sb| |sb mb eb], c as [sc|sc| |sc mc ec],
           b' as [sb'|sb'| |sb' mb' eb'];
    try (destruct sb); try (destruct sc); try (destruct sb');
    try discriminate; try reflexivity;
    change (Pos.compare_cont Eq mb mb') with (Pos.compare mb mb');
    change (Pos.compare_cont Eq mb mc) with (Pos.compare mb mc);
    change (Pos.compare_cont Eq mc mb') with (Pos.compare mc mb');
    change (Pos.compare_cont Eq mc mc) with (Pos.compare mc mc);
    intros H1 H2 _; revert H1 H2;
    destruct (Z.compare_spec eb eb'), (Z.compare_spec eb ec),
             (Z.compare_spec ec eb');
    try discriminate; try reflexivity; try lia;
    destruct (Pos.compare_spec mb mb'), (Pos.compare_spec mb mc),
             (Pos.compare_spec mc mb');
    simpl; try discriminate; try reflexivity; try lia.
Qed.

(** What does not exceed a smaller bound is below the larger one, unless it
    is not a number. *)
Lemma ltb_below (b c b' : float) :
  PrimFloat.ltb b b' = true -> PrimFloat.ltb b c = false ->
  PrimFloat.eqb c c = true -> PrimFloat.ltb c b' = true.
Proof. rewrite !ltb_spec, FloatAxioms.eqb_spec. apply SFltb_below. Qed.

Lemma ltb_not_eqb (x y : float) :
  PrimFloat.ltb x y = true -> PrimFloat.eqb x y = false.
Proof.
  rewrite ltb_spec, FloatAxioms.eqb_spec. unfold SFltb, SFeqb.
  destruct (SFcompare (Prim2SF x) (Prim2SF y)) as [[]|];
    try discriminate; reflexivity.
Qed.

Lemma nan_not_eqb (x y : float) :
  PrimFloat.eqb x x = false -> PrimFloat.eqb x y = false.
Proof.
  rewrite !FloatAxioms.eqb_spec. unfold SFeqb, SFcompare.
  destruct (Prim2SF x) as [[]|[]| |[] m e]; try discriminate;
    try reflexivity;
    rewrite Z.compare_refl;
    change (Pos.compare_cont Eq m m) with (Pos.compare m m);
    rewrite Pos.compare_refl; discriminate.
Qed.

Lemma nan_not_exceeding (x y : float) :
  PrimFloat.eqb x x = false -> PrimFloat.ltb y x = false.
Proof.
  rewrite FloatAxioms.eqb_spec, ltb_spec. unfold SFeqb, SFltb, SFcompare.
  destruct (Prim2SF x) as [[]|[]| |[] m e]; try discriminate;
    try (destruct (Prim2SF y) as [[]|[]| |[] m' e']; reflexivity);
    rewrite Z.compare_refl;
    change (Pos.compare_cont Eq m m) with (Pos.compare m m);
    rewrite Pos.compare_refl; discriminate.
Qed.

Lemma tie_step_inv m seen st cat :
  tie_inv m seen st -> tie_inv m (seen ++ [cat]) (best_step m st cat).
Proof.
  destruct st as [[best|] a]; unfold tie_inv, best_step, Py.float_gt;
    cbn [fst snd].
  - intros (Ha & before & after & Hseen & Hbefore & Hafter). subst a seen.
    destruct (PrimFloat.ltb (abs_amount m best) (abs_amount m cat)) eqn:E;
      cbn [fst snd].
    + split; [reflexivity|].
      exists (before ++ best :: after), []. split; [reflexivity|].
      split; [|intros c []].
      intros c [Hc|[<-|Hc]]%in_app_or.
      * destruct (Hbefore c Hc) as [Hlt|Hnan]; [left|right; exact Hnan].
        exact (ltb_trans _ _ _ Hlt E).
      * left. exact E.
      * destruct (PrimFloat.eqb (abs_amount m c) (abs_amount m c)) eqn:Hn;
          [left|right; reflexivity].
        exact (ltb_below _ _ _ E (Hafter c Hc) Hn).
    + split; [reflexivity|].
      exists before, (after ++ [cat]).
      split; [rewrite <- app_assoc; reflexivity|].
      split; [exact Hbefore|].
      intros c [Hc|[<-|[]]]%in_app_or; auto.
  - intros (Ha & Hmax). subst a.
    destruct (PrimFloat.ltb 0 (abs_amount m cat)) eqn:E; cbn [fst snd].
    + split; [reflexivity|].
      exists seen, []. split; [reflexivity|]. split; [|intros c []].
      intros c Hc.
      destruct (PrimFloat.eqb (abs_amount m c) (abs_amount m c)) eqn:Hn;
        [left|right; reflexivity].
      exact (ltb_below _ _ _ E (Hmax c Hc) Hn).
    + split; [reflexivity|].
      intros c [Hc|[<-|[]]]%in_app_or; auto.
Qed.

Lemma tie_fold_inv m cats :
  forall seen st,
    tie_inv m seen st ->
    tie_inv m (seen ++ cats) (fold_left (best_step m) cats st).
Proof.
  induction cats as [|cat cats IH]; intros seen st Hinv; simpl.
  - rewrite app_nil_r. exact Hinv.
  - replace (seen ++ cat :: cats) with ((seen ++ [cat]) ++ cats)
      by (rewrite <- app_assoc; reflexivity).
    apply IH, tie_step_inv, Hinv.
Qed.

(** X14. Among several categories with the same largest absolute total
    impact the automatic selection takes the earliest: the selected
    category splits the non-empty list so that no category before it has
    an absolute total impact equal to or greater than its own, and no
    category after it a greater one. *)
Theorem auto_select_earliest_of_ties (tis : list ImpactValue)
        (cats : list Ref) :
  cats <> [] ->
  exists before best after,
    cats = before ++ best :: after /\
    auto_select tis cats = Some best /\
    (forall c, In c before ->
       PrimFloat.eqb (PrimFloat.abs (total_amount_of tis c))
                     (PrimFloat.abs (total_amount_of tis best)) = false /\
       Py.float_gt (PrimFloat.abs (total_amount_of tis c))
                   (PrimFloat.abs (total_amount_of tis best)) = false) /\
    (forall c, In c after ->
       Py.float_gt (PrimFloat.abs (total_amount_of tis c))
                   (PrimFloat.abs (total_amount_of tis best)) = false).
Proof.
  intros Hne. unfold auto_select, Py.float_gt.
  pose proof (tie_fold_inv (impacts_by_id_of tis) cats [] (None, 0%float)) as H.
  cbn [app] in H.
  specialize (H (conj eq_refl (fun c (F : In c []) => match F with end))).
  unfold tie_inv in H.
  destruct (fold_left _ cats (None, 0%float)) as [[best|] a]; cbn [fst snd] in *.
  - destruct H as (_ & before & after & Hsplit & Hbefore & Hafter).
    exists before, best, after.
    split; [exact Hsplit|]. split; [reflexivity|]. split.
    + intros c Hc. rewrite <- !abs_amount_total.
      destruct (Hbefore c Hc) as [Hlt|Hnan].
      * split; [exact (ltb_not_eqb _ _ Hlt)|].
        destruct (PrimFloat.ltb (abs_amount (impacts_by_id_of tis) best)
                                (abs_amount (impacts_by_id_of tis) c)) eqn:E;
          [|reflexivity].
        pose proof (ltb_trans _ _ _ Hlt E) as Hcc.
        rewrite ltb_irrefl in Hcc. discriminate Hcc.
      * split; [exact (nan_not_eqb _ _ Hnan)|].
        exact (nan_not_exceeding _ _ Hnan).
    + intros c Hc. rewrite <- !abs_amount_total. apply Hafter, Hc.
  - destruct H as (_ & Hmax).
    destruct cats as [|c0 cats]; [congruence|].
    exists [], c0, cats.
    split; [reflexivity|]. split; [reflexivity|]. split; [intros c []|].
    intros c Hc. apply abs_not_pos_max; rewrite <- abs_amount_total;
      apply Hmax; [right; exact Hc|left; reflexivity].
Qed.

Lemma auto_select_earliest_of_ties_witness :
  exists before best after,
    sample_cats = before ++ best :: after /\
    auto_select tied_totals sample_cats = Some best /\
    (forall c, In c before ->
       PrimFloat.eqb (PrimFloat.abs (total_amount_of tied_totals c))
                     (PrimFloat.abs (total_amount_of tied_totals best))
       = false /\
       Py.float_gt (PrimFloat.abs (total_amount_of tied_totals c))
                   (PrimFloat.abs (total_amount_of tied_totals best))
       = false) /\
    (forall c, In c after ->
       Py.float_gt (PrimFloat.abs (total_amount_of tied_totals c))
                   (PrimFloat.abs (total_amount_of tied_totals best))
       = false).
Proof.
  apply (auto_select_earliest_of_ties tied_totals sample_cats).
  discriminate.
Defined.

(** X15. The amounts the automatic selection compares are read from a
    dict keyed by category id, so that for a category id that occurs more
    than once in the total impacts the last entry counts: appending an
    entry for a category replaces that category's amount by the entry's
    (0.0 when the entry has no amount) and leaves every other category's
    amount as it was, and an entry without a category changes nothing. *)
Theorem total_impacts_last_entry_wins (tis : list ImpactValue)
        (ti : ImpactValue) (cat : Ref) :
  match impact_category ti with
  | None => impacts_by_id_of (tis ++ [ti]) = impacts_by_id_of tis
  | Some c =>
      (ref_id c = ref_id cat ->
       abs_amount (impacts_by_id_of (tis ++ [ti])) cat
       = PrimFloat.abs (default 0%float (amount ti))) /\
      (ref_id c <> ref_id cat ->
       abs_amount (impacts_by_id_of (tis ++ [ti])) cat
       = abs_amount (impacts_by_id_of tis) cat)
  end.
Proof.
  unfold impacts_by_id_of. rewrite fold_left_app. cbn [fold_left].
  destruct (impact_category ti) as [c|]; [|reflexivity].
  unfold abs_amount. split.
  - intros ->. rewrite lookup_insert_eq. cbn [default]. apply abs_float_or.
  - intros Hne. rewrite lookup_insert_ne by exact Hne. reflexivity.
Qed.

Example auto_select_tie :
  auto_select tied_totals sample_cats = Some cat_climate.
Proof. vm_compute. reflexivity. Qed.

End Selection.
